(** * streamProfile: the elevation-profile service of [src/App.jsx]

    A shallow embedding of [ElevationProfileService] and the properties
    of its distance, sampling, provider and statistics code.

    Numbers.  The service is modelled with JavaScript numbers read as
    the real numbers [R], and [NaN] kept where the source can produce
    it from a value that is not a number (see [number] below): the
    arithmetic of that model is exact.  What rounding does to the
    distance and to the sums of the statistics is in the module
    [Binary64], where the same functions are written over IEEE doubles.
    A statement about distances or sums is made over the reals only
    under conditions in which rounding does not change it; where it
    does, the doubles give the example. *)

From Stdlib Require Import Reals Lra Lia List Arith String Ascii Bool ZArith.
From Stdlib Require PrimFloat.
Import ListNotations.

Local Open Scope R_scope.

(** ** JavaScript values *)

Module JS.

(** The result of a numeric operation: a real number or [NaN]. *)
Inductive number : Type :=
| NaN
| Num (x : R).

(** The values a JSON payload puts in the fields the service reads:
    [JUndefined] is an absent field.  Objects and arrays in the place of
    an elevation are not modelled. *)
Inductive jsval : Type :=
| JUndefined
| JNull
| JBool (b : bool)
| JNum (x : R)
| JStr (s : string).

(** The two built-in conversions from strings to numbers.  Their grammar
    is that of the language, not of this repository: they are parameters
    of the model. *)
Class Builtins : Type := {
  StringToNumber : string -> number;
  parseFloat : string -> number
}.

Section Conversions.
Context {B : Builtins}.

(** [ToNumber], the conversion applied by [-], [Math.min], [Math.max]. *)
Definition ToNumber (v : jsval) : number :=
  match v with
  | JUndefined => NaN
  | JNull => Num 0
  | JBool true => Num 1
  | JBool false => Num 0
  | JNum x => Num x
  | JStr s => StringToNumber s
  end.

(** [a - b] on values. *)
Definition js_sub (a b : jsval) : number :=
  match ToNumber a, ToNumber b with
  | Num x, Num y => Num (x - y)
  | _, _ => NaN
  end.

End Conversions.

Definition nadd (a b : number) : number :=
  match a, b with
  | Num x, Num y => Num (x + y)
  | _, _ => NaN
  end.

Definition nsub (a b : number) : number :=
  match a, b with
  | Num x, Num y => Num (x - y)
  | _, _ => NaN
  end.

(** [Math.abs]. *)
Definition Math_abs (a : number) : number :=
  match a with
  | Num x => Num (Rabs x)
  | NaN => NaN
  end.

(** [n > 0] and [n < 0]: false on [NaN]. *)
Definition gt0 (n : number) : bool :=
  match n with
  | Num x => if Rlt_dec 0 x then true else false
  | NaN => false
  end.

Definition lt0 (n : number) : bool :=
  match n with
  | Num x => if Rlt_dec x 0 then true else false
  | NaN => false
  end.

Definition nmin (a b : number) : number :=
  match a, b with
  | Num x, Num y => Num (Rmin x y)
  | _, _ => NaN
  end.

Definition nmax (a b : number) : number :=
  match a, b with
  | Num x, Num y => Num (Rmax x y)
  | _, _ => NaN
  end.

(** Truthiness, as [&&] and [if] test it. *)
Definition truthy (v : jsval) : bool :=
  match v with
  | JUndefined | JNull => false
  | JBool b => b
  | JNum x => if Req_dec_T x 0 then false else true
  | JStr s => negb (String.eqb s EmptyString)
  end.

(** [v !== undefined && v !== null]. *)
Definition not_undefined_or_null (v : jsval) : bool :=
  match v with
  | JUndefined | JNull => false
  | _ => true
  end.

(** [v !== undefined]. *)
Definition not_undefined (v : jsval) : bool :=
  match v with
  | JUndefined => false
  | _ => true
  end.

(** [v === s] for a string literal [s]. *)
Definition strict_eq_str (v : jsval) (s : string) : bool :=
  match v with
  | JStr t => String.eqb t s
  | _ => false
  end.

(** [s.split(' ')[0]]: the characters before the first space. *)
Fixpoint first_token (s : string) : string :=
  match s with
  | EmptyString => EmptyString
  | String c s' =>
      if Ascii.eqb c " "%char then EmptyString else String c (first_token s')
  end.

(** [n || 0] for a number [n]. *)
Definition or_zero (n : number) : R :=
  match n with
  | NaN => 0
  | Num x => if Req_dec_T x 0 then 0 else x
  end.

End JS.

(** ** Geodesic distance *)

Module Geo.

(** A coordinate is the array [[longitude, latitude]], in degrees. *)
Record coord : Type := mkCoord { lng : R; lat : R }.

(** [Math.atan2(y, x)] on real arguments. *)
Definition atan2 (y x : R) : R :=
  if Rlt_dec 0 x then atan (y / x)
  else if Rlt_dec x 0 then
    if Rle_dec 0 y then atan (y / x) + PI else atan (y / x) - PI
  else if Rlt_dec 0 y then PI / 2
  else if Rlt_dec y 0 then - (PI / 2)
  else 0.

Definition EARTH_R : R := 6371000.

(** The constant [a] of [haversineDistance]. *)
Definition haversine_a (coord1 coord2 : coord) : R :=
  let lat1 := (lat coord1 * PI) / 180 in
  let lat2 := (lat coord2 * PI) / 180 in
  let deltaLat := ((lat coord2 - lat coord1) * PI) / 180 in
  let deltaLng := ((lng coord2 - lng coord1) * PI) / 180 in
  sin (deltaLat / 2) * sin (deltaLat / 2) +
  cos lat1 * cos lat2 * sin (deltaLng / 2) * sin (deltaLng / 2).

Definition haversineDistance (coord1 coord2 : coord) : R :=
  let a := haversine_a coord1 coord2 in
  let c := 2 * atan2 (sqrt a) (sqrt (1 - a)) in
  EARTH_R * c.

(** [calculateCumulativeDistances]: the loop from index 1, with the
    previous coordinate and the running total carried along. *)
Fixpoint cumulative_loop (prev : coord) (rest : list coord) (totalDistance : R)
  : list R :=
  match rest with
  | [] => []
  | c :: rest' =>
      let segmentDistance := haversineDistance prev c in
      let totalDistance' := totalDistance + segmentDistance in
      totalDistance' :: cumulative_loop c rest' totalDistance'
  end.

Definition calculateCumulativeDistances (coordinates : list coord) : list R :=
  0 :: match coordinates with
       | [] => []
       | c0 :: rest => cumulative_loop c0 rest 0
       end.

End Geo.

(** ** The elevation-profile service *)

Module Service.
Import JS Geo.

(** *** What the providers send back *)

(** The body of a USGS 3DEP identify reply, by the fields that
    [getSingleElevationUSGS3DEP] reads.  [None] is an absent or falsy
    field. *)
Record attributes : Type := { Pixel_Value : jsval }.
Record feature : Type := { feature_attributes : option attributes }.
Record catalog : Type := { features : option (list feature) }.
Record api_error : Type := { message : string }.
Record usgs_data : Type := {
  error : option api_error;
  value : jsval;
  catalogItems : option catalog;
  name : jsval
}.

(** The body of an Open-Elevation reply: [data.results], each with an
    [elevation]. *)
Record oe_result : Type := { oe_elevation : jsval }.
Record oe_data : Type := { results : option (list oe_result) }.

(** What [fetch] gives: a rejected promise, or a response with a status
    and a body ([None]: a body that [response.json()] rejects). *)
Inductive response (J : Type) : Type :=
| NetworkError
| HttpResponse (status : nat) (body : option J).
Arguments NetworkError {J}.
Arguments HttpResponse {J} status body.

(** [response.ok]: a status in the range 200-299. *)
Definition ok (status : nat) : bool :=
  (200 <=? status)%nat && (status <=? 299)%nat.

Record location : Type := { latitude : R; longitude : R }.

(** The requests the service issues. *)
Inductive request : Type :=
| UsgsIdentify (coordinate : coord)
| OpenElevationLookup (locations : list location).

Definition trace : Type := list request.

(** The network: each reply may depend on the requests made before. *)
Record network : Type := {
  usgs_identify : trace -> coord -> response usgs_data;
  open_elevation_lookup : trace -> list location -> response oe_data
}.

(** *** Exceptions and effects *)

Inductive exn : Type :=
| InvalidCoordinates      (* "Invalid coordinates: need at least 2 points" *)
| FetchRejected           (* fetch itself failed *)
| HttpError (status : nat)
| JsonRejected            (* response.json() failed *)
| ApiError (msg : string) (* data.error *)
| TypeError               (* a property read of undefined *)
| AllSourcesFailed.       (* "Failed to get elevation data from all sources" *)

Inductive result (A : Type) : Type :=
| Ok (a : A)
| Throw (e : exn).
Arguments Ok {A} a.
Arguments Throw {A} e.

(** An asynchronous method: from the requests made so far to its outcome
    and the requests made by its end.  The 100 ms pause between point
    queries changes neither. *)
Definition M (A : Type) : Type := trace -> result A * trace.

Definition ret {A} (a : A) : M A := fun tr => (Ok a, tr).

Definition throw {A} (e : exn) : M A := fun tr => (Throw e, tr).

Definition bind {A B} (m : M A) (k : A -> M B) : M B :=
  fun tr =>
    match m tr with
    | (Ok a, tr') => k a tr'
    | (Throw e, tr') => (Throw e, tr')
    end.

(** [try { m } catch (e) { h e }]. *)
Definition try_catch {A} (m : M A) (h : exn -> M A) : M A :=
  fun tr =>
    match m tr with
    | (Ok a, tr') => (Ok a, tr')
    | (Throw e, tr') => h e tr'
    end.

Declare Scope service_scope.
Delimit Scope service_scope with service.
Notation "x <- m ;; k" := (bind m (fun x => k))
  (at level 61, m at next level, right associativity) : service_scope.
Local Open Scope service_scope.

(** *** Sampling (the first lines of both provider methods) *)

Definition maxPoints : nat := 50.

(** [arr.filter((_, index) => keep(index))], from position [index]. *)
Fixpoint filter_index {A} (keep : nat -> bool) (index : nat) (arr : list A)
  : list A :=
  match arr with
  | [] => []
  | x :: arr' =>
      if keep index then x :: filter_index keep (S index) arr'
      else filter_index keep (S index) arr'
  end.

Definition sample_step (len : nat) : nat := Nat.max 1 (len / maxPoints).

Definition sampleCoords {A} (coordinates : list A) : list A :=
  let step := sample_step (List.length coordinates) in
  filter_index (fun index => (index mod step =? 0)%nat) 0 coordinates.

(** *** Elevation statistics *)

Section Statistics.
Context {B : Builtins}.

Fixpoint gain_loop (prev : jsval) (rest : list jsval) (gain : number) : number :=
  match rest with
  | [] => gain
  | e :: rest' =>
      let diff := js_sub e prev in
      gain_loop e rest' (if gt0 diff then nadd gain diff else gain)
  end.

Definition calculateElevationGain (elevations : list jsval) : number :=
  match elevations with
  | [] => Num 0
  | e0 :: rest => gain_loop e0 rest (Num 0)
  end.

Fixpoint loss_loop (prev : jsval) (rest : list jsval) (loss : number) : number :=
  match rest with
  | [] => loss
  | e :: rest' =>
      let diff := js_sub e prev in
      loss_loop e rest' (if lt0 diff then nadd loss (Math_abs diff) else loss)
  end.

Definition calculateElevationLoss (elevations : list jsval) : number :=
  match elevations with
  | [] => Num 0
  | e0 :: rest => loss_loop e0 rest (Num 0)
  end.

(** [Math.min(...elevations)] and [Math.max(...elevations)] of a
    non-empty array, given as its first element and the others.  (Of an
    empty array they are the infinities; [getElevationProfile] never
    gets there, see below.) *)
Definition Math_min (e0 : jsval) (rest : list jsval) : number :=
  fold_left (fun m e => nmin m (ToNumber e)) rest (ToNumber e0).

Definition Math_max (e0 : jsval) (rest : list jsval) : number :=
  fold_left (fun m e => nmax m (ToNumber e)) rest (ToNumber e0).

(** An elevation that is a number, as a value or once converted. *)
Definition numeric (e : jsval) : Prop := exists x, ToNumber e = Num x.

End Statistics.

(** *** The profile *)

Record sample : Type := {
  sample_longitude : R;
  sample_latitude : R;
  elevation : jsval;
  distance : R;
  distanceKm : R
}.

Record statistics_t : Type := {
  totalDistanceMeters : R;
  totalDistanceKm : R;
  minElevation : number;
  maxElevation : number;
  elevationGain : number;
  elevationLoss : number;
  numberOfPoints : nat
}.

Record profile : Type := {
  points : list sample;
  statistics : statistics_t
}.

(** *** The providers *)

Section Providers.
Context {B : Builtins}.
Variable net : network.

(** [await fetch(...)] of the USGS identify endpoint, for one point. *)
Definition fetch_usgs (coordinate : coord) : M (nat * option usgs_data) :=
  fun tr =>
    let tr' := tr ++ [UsgsIdentify coordinate] in
    match usgs_identify net tr coordinate with
    | NetworkError => (Throw FetchRejected, tr')
    | HttpResponse status body => (Ok (status, body), tr')
    end.

(** [await fetch(...)] of the Open-Elevation lookup, for all points. *)
Definition fetch_open_elevation (locations : list location)
  : M (nat * option oe_data) :=
  fun tr =>
    let tr' := tr ++ [OpenElevationLookup locations] in
    match open_elevation_lookup net tr locations with
    | NetworkError => (Throw FetchRejected, tr')
    | HttpResponse status body => (Ok (status, body), tr')
    end.

(** [await response.json()]. *)
Definition json {J} (body : option J) : M J :=
  match body with
  | Some data => ret data
  | None => throw JsonRejected
  end.

(** "Extract elevation value from response": the [if] chain of
    [getSingleElevationUSGS3DEP], with [elevation] starting at 0. *)
Definition extractElevation (data : usgs_data) : jsval :=
  let elevation := JNum 0 in
  if not_undefined_or_null (value data) then
    value data
  else
    match catalogItems data with
    | Some {| features := Some (feature :: _) |} =>
        match feature_attributes feature with
        | Some attrs =>
            if not_undefined (Pixel_Value attrs) then Pixel_Value attrs
            else elevation
        | None => elevation
        end
    | _ =>
        if strict_eq_str (name data) "Pixel" && truthy (value data) then
          match value data with
          | JStr s => JNum (or_zero (parseFloat (first_token s)))
          | v => v
          end
        else elevation
    end.

Definition getSingleElevationUSGS3DEP (coordinate : coord) : M jsval :=
  response <- fetch_usgs coordinate ;;
  let '(status, body) := response in
  if negb (ok status) then throw (HttpError status)
  else
    data <- json body ;;
    match error data with
    | Some err => throw (ApiError (message err))
    | None => ret (extractElevation data)
    end.

(** What the loop below records for a point that is looked up after the
    requests [tr]: the elevation found, or 0 when the lookup throws. *)
Definition recorded_elevation (tr : trace) (coord : coord) : jsval :=
  match fst (getSingleElevationUSGS3DEP coord tr) with
  | Ok elevation => elevation
  | Throw _ => JNum 0
  end.

(** The elevations recorded for the points of [sampledCoords], looked up
    one after the other. *)
Fixpoint recorded_elevations (tr : trace) (sampledCoords : list coord)
  : list jsval :=
  match sampledCoords with
  | [] => []
  | c :: rest =>
      recorded_elevation tr c
      :: recorded_elevations (tr ++ [UsgsIdentify c]) rest
  end.

(** The [for (const coord of sampledCoords)] loop of
    [getElevationFromUSGS3DEP]. *)
Fixpoint usgs_loop (sampledCoords : list coord) (allElevationData : list jsval)
  : M (list jsval) :=
  match sampledCoords with
  | [] => ret allElevationData
  | coord :: rest =>
      allElevationData' <-
        try_catch
          (elevation <- getSingleElevationUSGS3DEP coord ;;
           ret (allElevationData ++ [elevation]))
          (fun _ => ret (allElevationData ++ [JNum 0])) ;;
      usgs_loop rest allElevationData'
  end.

(** [arr.map((x, index) => f(x, index))], from position [index]. *)
Fixpoint map_index {A C} (f : A -> nat -> C) (index : nat) (arr : list A)
  : list C :=
  match arr with
  | [] => []
  | x :: arr' => f x index :: map_index f (S index) arr'
  end.

(** The same with a callback that may throw. *)
Fixpoint map_index_M {A C} (f : A -> nat -> M C) (index : nat) (arr : list A)
  : M (list C) :=
  match arr with
  | [] => ret []
  | x :: arr' =>
      y <- f x index ;;
      ys <- map_index_M f (S index) arr' ;;
      ret (y :: ys)
  end.

(** [distances[index]] is read only at an index of [sampledCoords], which
    [distances] always has (lemma [distances_length]): the default of
    [nth] is never returned. *)
Definition getElevationFromUSGS3DEP (coordinates : list coord)
  : M (list sample) :=
  try_catch
    (let sampledCoords := sampleCoords coordinates in
     allElevationData <- usgs_loop sampledCoords [] ;;
     let distances := calculateCumulativeDistances sampledCoords in
     let elevationData :=
       map_index
         (fun coord index =>
            {| sample_longitude := lng coord;
               sample_latitude := lat coord;
               elevation := nth index allElevationData JUndefined;
               distance := nth index distances 0;
               distanceKm := nth index distances 0 / 1000 |})
         0 sampledCoords in
     ret elevationData)
    (fun error => throw error).

(** The callback of [data.results.map] in the batch provider: reading
    [sampledCoords[index][0]] throws when [sampledCoords] has no such
    index. *)
Definition result_to_sample (sampledCoords : list coord) (distances : list R)
    (result : oe_result) (index : nat) : M sample :=
  match nth_error sampledCoords index with
  | None => throw TypeError
  | Some coord =>
      ret {| sample_longitude := lng coord;
             sample_latitude := lat coord;
             elevation := oe_elevation result;
             distance := nth index distances 0;
             distanceKm := nth index distances 0 / 1000 |}
  end.

Definition getElevationFromOpenElevation (coordinates : list coord)
  : M (list sample) :=
  try_catch
    (let sampledCoords := sampleCoords coordinates in
     let locations :=
       map (fun coord => {| latitude := lat coord; longitude := lng coord |})
         sampledCoords in
     response <- fetch_open_elevation locations ;;
     let '(status, body) := response in
     if negb (ok status) then throw (HttpError status)
     else
       data <- json body ;;
       let distances := calculateCumulativeDistances sampledCoords in
       match results data with
       | None => throw TypeError
       | Some results =>
           map_index_M (result_to_sample sampledCoords distances) 0 results
       end)
    (fun error => throw error).

(** [coordinates] is [None] when the argument is [undefined] or [null].
    An empty [elevationData] makes [elevationData[length - 1].distance]
    throw, outside any [try]. *)
Definition getElevationProfile (coordinates : option (list coord)) : M profile :=
  match coordinates with
  | None => throw InvalidCoordinates
  | Some coordinates =>
      if (List.length coordinates <? 2)%nat then throw InvalidCoordinates
      else
        elevationData <-
          try_catch (getElevationFromUSGS3DEP coordinates)
            (fun error =>
               try_catch (getElevationFromOpenElevation coordinates)
                 (fun fallbackError => throw AllSourcesFailed)) ;;
        let elevations := map elevation elevationData in
        match elevationData with
        | [] => throw TypeError
        | p0 :: ps =>
            let totalDistance := distance (last ps p0) in
            ret {| points := elevationData;
                   statistics :=
                     {| totalDistanceMeters := totalDistance;
                        totalDistanceKm := totalDistance / 1000;
                        minElevation :=
                          Math_min (elevation p0) (map elevation ps);
                        maxElevation :=
                          Math_max (elevation p0) (map elevation ps);
                        elevationGain := calculateElevationGain elevations;
                        elevationLoss := calculateElevationLoss elevations;
                        numberOfPoints := List.length elevationData |} |}
        end
  end.

End Providers.

End Service.
(** ** Concrete networks and inputs for the examples *)

Module Examples.
Import JS Geo Service.

(** Builtins for the closed examples, none of which converts a string. *)
Definition opaque_strings : Builtins :=
  {| StringToNumber := fun _ => NaN; parseFloat := fun _ => NaN |}.

Definition c_a : coord := mkCoord (-110) 41.
Definition c_b : coord := mkCoord (-109) 42.
Definition c_c : coord := mkCoord (-108) 43.

Definition usgs_value (v : jsval) : usgs_data :=
  {| error := None; value := v; catalogItems := None; name := JUndefined |}.

Definition batch_of (elevations : list jsval) : oe_data :=
  {| results := Some (map (fun e => {| oe_elevation := e |}) elevations) |}.

(** USGS answers HTTP 500 to every point; Open-Elevation is healthy and
    answers 100 for each location. *)
Definition usgs_down : network :=
  {| usgs_identify := fun _ _ => HttpResponse 500 None;
     open_elevation_lookup := fun _ locations =>
       HttpResponse 200 (Some (batch_of (map (fun _ => JNum 100) locations))) |}.

(** USGS answers HTTP 500 to the first point it is asked about and 1500
    to the later ones. *)
Definition usgs_first_point_fails : network :=
  {| usgs_identify := fun tr _ =>
       match tr with
       | [] => HttpResponse 500 None
       | _ => HttpResponse 200 (Some (usgs_value (JNum 1500)))
       end;
     open_elevation_lookup := fun _ _ => NetworkError |}.

(** USGS answers the elevations 100, 150, 120, one per request made. *)
Definition usgs_hill : network :=
  {| usgs_identify := fun tr _ =>
       HttpResponse 200
         (Some (usgs_value (nth (List.length tr) [JNum 100; JNum 150; JNum 120]
                              JUndefined)));
     open_elevation_lookup := fun _ _ => NetworkError |}.

(** Open-Elevation answers with a single result, whatever it is asked. *)
Definition short_batch : network :=
  {| usgs_identify := fun _ _ => NetworkError;
     open_elevation_lookup := fun _ _ =>
       HttpResponse 200 (Some (batch_of [JNum 100])) |}.

(** Open-Elevation answers with three results, whatever it is asked. *)
Definition long_batch : network :=
  {| usgs_identify := fun _ _ => NetworkError;
     open_elevation_lookup := fun _ _ =>
       HttpResponse 200 (Some (batch_of [JNum 100; JNum 150; JNum 120])) |}.

(** The identify reply [{ name: "Pixel", value: "12.5 7" }]. *)
Definition pixel_string : usgs_data :=
  {| error := None; value := JStr "12.5 7"; catalogItems := None;
     name := JStr "Pixel" |}.

(** USGS answers every point with that reply. *)
Definition usgs_pixel_string : network :=
  {| usgs_identify := fun _ _ => HttpResponse 200 (Some pixel_string);
     open_elevation_lookup := fun _ _ => NetworkError |}.

End Examples.

(** ** The length of a path *)

Module Path.
Import Geo.

(** The sum of the distances between consecutive coordinates, from
    [prev] through [rest]. *)
Fixpoint length_from (prev : coord) (rest : list coord) : R :=
  match rest with
  | [] => 0
  | c :: rest' => haversineDistance prev c + length_from c rest'
  end.

Definition path_length (coordinates : list coord) : R :=
  match coordinates with
  | [] => 0
  | c0 :: rest => length_from c0 rest
  end.

End Path.

(** ** Ascent and descent of a sequence of numbers *)

Module Climb.

(** The sum of the rises, and of the falls, between consecutive
    elevations, from [prev] through [rest]. *)
Fixpoint ascent_from (prev : R) (rest : list R) : R :=
  match rest with
  | [] => 0
  | e :: rest' => Rmax 0 (e - prev) + ascent_from e rest'
  end.

Fixpoint descent_from (prev : R) (rest : list R) : R :=
  match rest with
  | [] => 0
  | e :: rest' => Rmax 0 (prev - e) + descent_from e rest'
  end.

Definition ascent (elevations : list R) : R :=
  match elevations with
  | [] => 0
  | e0 :: rest => ascent_from e0 rest
  end.

Definition descent (elevations : list R) : R :=
  match elevations with
  | [] => 0
  | e0 :: rest => descent_from e0 rest
  end.

End Climb.

(** ** The chart: the scales of [ElevationChart] *)

Module Chart.
Import Service.

Definition width : R := 800.
Definition height : R := 150.
Definition margin_top : R := 20.
Definition margin_right : R := 20.
Definition margin_bottom : R := 30.
Definition margin_left : R := 50.
Definition chartWidth : R := width - margin_left - margin_right.
Definition chartHeight : R := height - margin_top - margin_bottom.

(** [Math.max(...points.map((p) => p.distance))], of the non-empty
    [points] that the component draws (it returns [null] for none),
    given as the first point and the others. *)
Definition maxDistance (p0 : sample) (ps : list sample) : R :=
  fold_left Rmax (map distance ps) (distance p0).

(** The two scales, on numbers.  [xScale] divides by [maxDistance]: it
    is read here for a [maxDistance] that is not 0. *)
Definition xScale (maxDistance distance : R) : R :=
  (distance / maxDistance) * chartWidth.

Definition yScale (minElevation maxElevation elevation : R) : R :=
  let elevationRange := maxElevation - minElevation in
  if Req_dec_T elevationRange 0 then chartHeight / 2
  else chartHeight - ((elevation - minElevation) / elevationRange) * chartHeight.

End Chart.

(** ** The page: selecting a stream on the map *)

Module Ui.
Import JS Geo Service.

(** A rendered feature of a line layer: its geometry and its
    properties. *)
Inductive geometry : Type :=
| LineString (coordinates : list coord)
| MultiLineString (coordinates : list (list coord)).

Record feature : Type := {
  feature_geometry : geometry;
  feature_properties : list (string * jsval)
}.

Record point : Type := { point_x : R; point_y : R }.

(** The map widget, by what the service and the click handler use of
    it: [queryRenderedFeatures] ([None] when the call throws), and the
    source and the layer named ["highlighted-stream"], which are there
    or not. *)
Record map_t : Type := {
  queryRenderedFeatures : point -> list string -> option (list feature);
  highlighted_source : option feature;
  highlighted_layer : bool
}.

Definition getSource (map : map_t) : bool :=
  match highlighted_source map with Some _ => true | None => false end.

Definition removeLayer (map : map_t) : map_t :=
  {| queryRenderedFeatures := queryRenderedFeatures map;
     highlighted_source := highlighted_source map;
     highlighted_layer := false |}.

Definition removeSource (map : map_t) : map_t :=
  {| queryRenderedFeatures := queryRenderedFeatures map;
     highlighted_source := None;
     highlighted_layer := highlighted_layer map |}.

Definition addSource (data : feature) (map : map_t) : map_t :=
  {| queryRenderedFeatures := queryRenderedFeatures map;
     highlighted_source := Some data;
     highlighted_layer := highlighted_layer map |}.

Definition addLayer (map : map_t) : map_t :=
  {| queryRenderedFeatures := queryRenderedFeatures map;
     highlighted_source := highlighted_source map;
     highlighted_layer := true |}.

(** What [querySelectedLine] resolves to when it is not [null];
    [sel_coordinates] is [None] when [coordinates[0]] is [undefined]. *)
Record selection : Type := {
  sel_coordinates : option (list coord);
  sel_feature : feature
}.

Definition querySelectedLine (map : map_t) (pt : point) (layerIds : list string)
  : option selection :=
  match queryRenderedFeatures map pt layerIds with
  | None => None
  | Some [] => None
  | Some (lineFeature :: _) =>
      match feature_geometry lineFeature with
      | MultiLineString coordinates =>
          Some {| sel_coordinates := nth_error coordinates 0;
                  sel_feature := lineFeature |}
      | LineString coordinates =>
          Some {| sel_coordinates := Some coordinates;
                  sel_feature := lineFeature |}
      end
  end.

Definition highlightSelectedStream (map : map_t) (feature : option feature)
  : map_t :=
  let map := if getSource map then removeSource (removeLayer map) else map in
  match feature with
  | Some f => addLayer (addSource f map)
  | None => map
  end.

(** The state of the [App] component that the handlers set. *)
Record ui : Type := {
  elevationProfile : option profile;
  selectedStreamFeature : option feature;
  loading : bool;
  errorMessage : option string;
  showInstructions : bool
}.

Definition initial_ui : ui :=
  {| elevationProfile := None; selectedStreamFeature := None;
     loading := false; errorMessage := None; showInstructions := true |}.

Definition setElevationProfile (v : option profile) (st : ui) : ui :=
  {| elevationProfile := v;
     selectedStreamFeature := selectedStreamFeature st;
     loading := loading st; errorMessage := errorMessage st;
     showInstructions := showInstructions st |}.

Definition setSelectedStreamFeature (v : option feature) (st : ui) : ui :=
  {| elevationProfile := elevationProfile st;
     selectedStreamFeature := v;
     loading := loading st; errorMessage := errorMessage st;
     showInstructions := showInstructions st |}.

Definition setLoading (v : bool) (st : ui) : ui :=
  {| elevationProfile := elevationProfile st;
     selectedStreamFeature := selectedStreamFeature st;
     loading := v; errorMessage := errorMessage st;
     showInstructions := showInstructions st |}.

Definition setError (v : option string) (st : ui) : ui :=
  {| elevationProfile := elevationProfile st;
     selectedStreamFeature := selectedStreamFeature st;
     loading := loading st; errorMessage := v;
     showInstructions := showInstructions st |}.

Definition setShowInstructions (v : bool) (st : ui) : ui :=
  {| elevationProfile := elevationProfile st;
     selectedStreamFeature := selectedStreamFeature st;
     loading := loading st; errorMessage := errorMessage st;
     showInstructions := v |}.

Definition no_stream_found : string :=
  "No trout stream found. Please click on a blue stream line."%string.

Definition failed_to_get_data : string :=
  "Failed to get elevation data. Please try again."%string.

(** The layers that the click handler queries. *)
Definition layers : list string :=
  ["all_streams"%string; "gold_streams"%string].

Section Handlers.
Context {B : Builtins}.
Variable net : network.

(** [handleMapClick]: the state of the page, the map and the requests
    made, before and after one click at [pt]. *)
Definition handleMapClick (pt : point) (st : ui) (map : map_t) (tr : trace)
  : ui * map_t * trace :=
  let st := setLoading true st in
  let st := setError None st in
  let '(st, map, tr) :=
    match querySelectedLine map pt layers with
    | Some {| sel_coordinates := Some coordinates; sel_feature := f |} =>
        match getElevationProfile net (Some coordinates) tr with
        | (Ok prof, tr') =>
            let st := setElevationProfile (Some prof) st in
            let st := setSelectedStreamFeature (Some f) st in
            let st := setShowInstructions false st in
            (st, highlightSelectedStream map (Some f), tr')
        | (Throw _, tr') =>
            (setError (Some failed_to_get_data) st, map, tr')
        end
    | _ => (setError (Some no_stream_found) st, map, tr)
    end in
  (setLoading false st, map, tr).

End Handlers.

(** [clearSelection], with the map it sees ([None]: no map yet). *)
Definition clearSelection (map : option map_t) (st : ui) : ui * option map_t :=
  let st := setElevationProfile None st in
  let st := setSelectedStreamFeature None st in
  match map with
  | Some m =>
      if getSource m then (st, Some (removeSource (removeLayer m)))
      else (st, Some m)
  | None => (st, None)
  end.

End Ui.

(** ** More concrete inputs *)

Module MoreExamples.
Import JS Geo Service Ui Examples.

(** One degree north of [c_a], on the same meridian. *)
Definition c_north : coord := mkCoord (-110) (41 + 1).

(** Open-Elevation answers HTTP 503. *)
Definition open_elevation_unavailable : network :=
  {| usgs_identify := fun _ _ => NetworkError;
     open_elevation_lookup := fun _ _ => HttpResponse 503 None |}.

Definition line_feature : feature :=
  {| feature_geometry := LineString [c_a; c_b; c_c];
     feature_properties := [("is_trout"%string, JNum 1)] |}.

Definition stub_feature : feature :=
  {| feature_geometry := LineString [c_a];
     feature_properties := [] |}.

Definition click_point : point := {| point_x := 10; point_y := 20 |}.

(** A map that renders [features] under every point, with no highlight. *)
Definition map_rendering (features : list feature) : map_t :=
  {| queryRenderedFeatures := fun _ _ => Some features;
     highlighted_source := None;
     highlighted_layer := false |}.

End MoreExamples.

(** ** The numeric code on IEEE doubles *)

Module Binary64.
Import PrimFloat.
Local Open Scope float_scope.

(** A coordinate is the array [[longitude, latitude]], in degrees. *)
Record coord : Type := mkCoord { lng : float; lat : float }.

(** [Math.sin], [Math.cos] and [Math.atan2] are approximated by the
    implementation; the language fixes their result at a few arguments
    only.  Of these the model keeps [NaN] and the infinities, where the
    result is [NaN]; on the other arguments the three functions are
    parameters of the model. *)
Class MathLibrary : Type := {
  sin_of : float -> float;
  cos_of : float -> float;
  atan2_of : float -> float -> float
}.

Section Distance.
Context {M : MathLibrary}.

(** [Math.PI], the double nearest to pi. *)
Definition Math_PI : float := 0x1.921fb54442d18p+1.

Definition Math_sin (x : float) : float :=
  if is_finite x then sin_of x else nan.

Definition Math_cos (x : float) : float :=
  if is_finite x then cos_of x else nan.

Definition Math_atan2 (y x : float) : float :=
  if is_nan y || is_nan x then nan else atan2_of y x.

(** [Math.sqrt] is the square root of IEEE 754: [NaN] below zero. *)
Definition Math_sqrt (x : float) : float := sqrt x.

Definition haversineDistance (coord1 coord2 : coord) : float :=
  let R := 6371000 in
  let lat1 := (lat coord1 * Math_PI) / 180 in
  let lat2 := (lat coord2 * Math_PI) / 180 in
  let deltaLat := ((lat coord2 - lat coord1) * Math_PI) / 180 in
  let deltaLng := ((lng coord2 - lng coord1) * Math_PI) / 180 in
  let a :=
    Math_sin (deltaLat / 2) * Math_sin (deltaLat / 2) +
    Math_cos lat1 *
      Math_cos lat2 *
      Math_sin (deltaLng / 2) *
      Math_sin (deltaLng / 2) in
  let c := 2 * Math_atan2 (Math_sqrt a) (Math_sqrt (1 - a)) in
  R * c.

Fixpoint cumulative_loop (prev : coord) (rest : list coord)
         (totalDistance : float) : list float :=
  match rest with
  | [] => []
  | c :: rest' =>
      let segmentDistance := haversineDistance prev c in
      let totalDistance' := totalDistance + segmentDistance in
      totalDistance' :: cumulative_loop c rest' totalDistance'
  end.

Definition calculateCumulativeDistances (coordinates : list coord)
  : list float :=
  0 :: match coordinates with
       | [] => []
       | c0 :: rest => cumulative_loop c0 rest 0
       end.

End Distance.

(** Gain and loss of elevations that are numbers. *)
Fixpoint gain_loop (prev : float) (rest : list float) (gain : float) : float :=
  match rest with
  | [] => gain
  | e :: rest' =>
      let diff := e - prev in
      gain_loop e rest' (if 0 <? diff then gain + diff else gain)
  end.

Definition calculateElevationGain (elevations : list float) : float :=
  match elevations with
  | [] => 0
  | e0 :: rest => gain_loop e0 rest 0
  end.

Fixpoint loss_loop (prev : float) (rest : list float) (loss : float) : float :=
  match rest with
  | [] => loss
  | e :: rest' =>
      let diff := e - prev in
      loss_loop e rest' (if diff <? 0 then loss + abs diff else loss)
  end.

Definition calculateElevationLoss (elevations : list float) : float :=
  match elevations with
  | [] => 0
  | e0 :: rest => loss_loop e0 rest 0
  end.

(** *** Two nearly antipodal points

    [[0, 8]] and [[-180, -8]].  The arguments that [haversineDistance]
    passes to the sine and the cosine at this pair, and the doubles
    nearest to the sine and the cosine there:
    - [deltaLat / 2 = -0.13962634015954636], of sine
      [-0.13917310096006544];
    - [deltaLng / 2 = -1.5707963267948966], of sine [-1];
    - [lat1 = 0.13962634015954636] and [lat2 = -lat1], of cosine
      [0.9902680687415704]. *)
Definition north : coord := mkCoord 0 8.
Definition south : coord := mkCoord (-180) (-8).

Definition half_deltaLat : float := -0x1.1df46a2529d39p-3.
Definition half_deltaLng : float := -0x1.921fb54442d18p+0.
Definition sin_half_deltaLat : float := -0x1.1d06c968d9e19p-3.
Definition cos_lat1 : float := 0x1.fb046a930947ap-1.


(** One such library: the table of these values (and 0 elsewhere, where
    the example does not look). *)
Definition antipodes_table : MathLibrary :=
  {| sin_of := fun x =>
       if x =? half_deltaLat then sin_half_deltaLat
       else if x =? half_deltaLng then -1
       else 0;
     cos_of := fun x =>
       if abs x =? abs half_deltaLat then cos_lat1 else 0;
     atan2_of := fun _ _ => 0 |}.



End Binary64.

(** ** Cumulative distances when a distance can be [NaN] *)

Module Partial.
Import JS Geo.

(** [a <= b] on numbers: false when either is [NaN]. *)
Definition nle (a b : number) : bool :=
  match a, b with
  | Num x, Num y => if Rle_dec x y then true else false
  | _, _ => false
  end.

Section Distances.

(** What [haversineDistance] returns for two coordinates: a number, or
    [NaN] (see [Binary64]). *)
Variable distance : coord -> coord -> number.

(** [calculateCumulativeDistances]: the loop from index 1, with the
    previous coordinate and the running total carried along. *)
Fixpoint cumulative_loop (prev : coord) (rest : list coord)
         (totalDistance : number) : list number :=
  match rest with
  | [] => []
  | c :: rest' =>
      let segmentDistance := distance prev c in
      let totalDistance' := nadd totalDistance segmentDistance in
      totalDistance' :: cumulative_loop c rest' totalDistance'
  end.

Definition calculateCumulativeDistances (coordinates : list coord)
  : list number :=
  Num 0 :: match coordinates with
           | [] => []
           | c0 :: rest => cumulative_loop c0 rest (Num 0)
           end.

End Distances.

(** Every segment of a sequence of coordinates has a distance that is
    a number and is not negative. *)
Definition segments_measured (distance : coord -> coord -> number)
           (coordinates : list coord) : Prop :=
  forall i c1 c2,
    nth_error coordinates i = Some c1 ->
    nth_error coordinates (S i) = Some c2 ->
    exists d, distance c1 c2 = Num d /\ 0 <= d.

(** The distance of the real-number model, as a number. *)
Definition exact_distance (coord1 coord2 : coord) : number :=
  Num (haversineDistance coord1 coord2).

End Partial.

(** ** Ranges of the inputs *)

Module Ranges.
Import JS Geo.


(** Elevations in whole metres, as values. *)
Definition whole (elevations : list Z) : list jsval :=
  map (fun z => JNum (IZR z)) elevations.

(** At most a million elevations, each of at most a million metres up
    or down: every difference and every sum that the statistics form
    is then a whole number far below [2^53], which doubles hold
    exactly. *)
Definition small (elevations : list Z) : Prop :=
  (Z.of_nat (List.length elevations) <= 1000000)%Z /\
  Forall (fun z => (Z.abs z <= 1000000)%Z) elevations.

End Ranges.

(** ** Properties of the distance *)

Section HaversineFacts.
Import Geo.



Lemma atan2_nonneg (y x : R) : 0 <= y -> 0 <= x -> 0 <= atan2 y x.
Proof.
  intros Hy Hx. unfold atan2.
  destruct (Rlt_dec 0 x) as [Hpos | Hnpos].
  - destruct Hy as [Hy | <-].
    + left. rewrite <- atan_0. apply atan_increasing.
      apply Rdiv_lt_0_compat; assumption.
    + unfold Rdiv. rewrite Rmult_0_l, atan_0. lra.
  - destruct (Rlt_dec x 0); [lra |].
    pose proof PI_RGT_0.
    destruct (Rlt_dec 0 y); [lra |].
    destruct (Rlt_dec y 0); lra.
Qed.

Lemma haversineDistance_nonneg (c1 c2 : coord) : 0 <= haversineDistance c1 c2.
Proof.
  unfold haversineDistance, EARTH_R; cbv zeta.
  pose proof (atan2_nonneg (sqrt (haversine_a c1 c2))
                (sqrt (1 - haversine_a c1 c2))
                (sqrt_pos _) (sqrt_pos _)).
  nra.
Qed.





End HaversineFacts.

(** ** Properties of the cumulative distances *)

Section CumulativeFacts.
Import JS Geo.
Import Partial (segments_measured).

Lemma cumulative_loop_length (rest : list coord) :
  forall prev total,
    List.length (cumulative_loop prev rest total) = List.length rest.
Proof.
  induction rest as [| c rest IH]; intros prev total; simpl.
  - reflexivity.
  - now rewrite IH.
Qed.

Lemma distances_length (coordinates : list coord) :
  List.length (calculateCumulativeDistances coordinates)
  = Nat.max 1 (List.length coordinates).
Proof.
  destruct coordinates as [| c0 rest]; simpl.
  - reflexivity.
  - now rewrite cumulative_loop_length.
Qed.

Lemma cumulative_loop_lower (rest : list coord) :
  forall prev total x,
    In x (cumulative_loop prev rest total) -> total <= x.
Proof.
  induction rest as [| c rest IH]; intros prev total x Hin; simpl in Hin.
  - contradiction.
  - pose proof (haversineDistance_nonneg prev c) as Hd.
    destruct Hin as [<- | Hin].
    + lra.
    + apply IH in Hin. lra.
Qed.

Lemma cumulative_loop_sorted (rest : list coord) :
  forall prev total i j x y,
    (i <= j)%nat ->
    nth_error (total :: cumulative_loop prev rest total) i = Some x ->
    nth_error (total :: cumulative_loop prev rest total) j = Some y ->
    x <= y.
Proof.
  induction rest as [| c rest IH]; intros prev total i j x y Hij Hi Hj.
  - destruct j as [| j]; [| destruct j; discriminate].
    assert (i = 0)%nat as -> by lia. simpl in Hi, Hj. injection Hi as <-.
    injection Hj as <-. lra.
  - destruct i as [| i].
    + simpl in Hi. injection Hi as <-.
      destruct j as [| j].
      * simpl in Hj. injection Hj as <-. lra.
      * change (nth_error (cumulative_loop prev (c :: rest) total) j = Some y)
          in Hj.
        apply nth_error_In in Hj.
        now apply cumulative_loop_lower in Hj.
    + destruct j as [| j]; [lia |].
      simpl in Hi, Hj.
      apply (IH c (total + haversineDistance prev c) i j x y);
        [lia | exact Hi | exact Hj].
Qed.

(** The same loop when a distance can be [NaN]. *)
Lemma partial_loop_length (distance : coord -> coord -> number)
      (rest : list coord) :
  forall prev total,
    List.length (Partial.cumulative_loop distance prev rest total)
    = List.length rest.
Proof.
  induction rest as [| c rest IH]; intros prev total; simpl.
  - reflexivity.
  - now rewrite IH.
Qed.

Lemma partial_loop_step (distance : coord -> coord -> number)
      (rest : list coord) :
  forall prev total i c1 c2,
    nth_error (prev :: rest) i = Some c1 ->
    nth_error (prev :: rest) (S i) = Some c2 ->
    exists d1,
      nth_error (total :: Partial.cumulative_loop distance prev rest total) i
      = Some d1 /\
      nth_error (total :: Partial.cumulative_loop distance prev rest total) (S i)
      = Some (nadd d1 (distance c1 c2)).
Proof.
  induction rest as [| c rest IH]; intros prev total i c1 c2 H1 H2.
  - destruct i; simpl in H2; discriminate.
  - destruct i as [| i].
    + simpl in H1, H2. injection H1 as <-. injection H2 as <-.
      exists total. split; reflexivity.
    + simpl in H1. change (nth_error (c :: rest) (S i) = Some c2) in H2.
      destruct (IH c (nadd total (distance prev c)) i c1 c2 H1 H2)
        as [d1 [E1 E2]].
      exists d1. split; assumption.
Qed.

Lemma segments_measured_tail (distance : coord -> coord -> number)
      (prev : coord) (rest : list coord) :
  segments_measured distance (prev :: rest) -> segments_measured distance rest.
Proof. intros H i c1 c2 H1 H2. apply (H (S i) c1 c2); assumption. Qed.

Lemma partial_loop_lower (distance : coord -> coord -> number)
      (rest : list coord) :
  forall prev total x,
    segments_measured distance (prev :: rest) ->
    In x (Partial.cumulative_loop distance prev rest (Num total)) ->
    exists y, x = Num y /\ total <= y.
Proof.
  induction rest as [| c rest IH]; intros prev total x Hseg Hin;
    simpl in Hin.
  - contradiction.
  - destruct (Hseg 0%nat prev c eq_refl eq_refl) as [d [Ed Hd]].
    rewrite Ed in Hin. cbn [nadd] in Hin.
    destruct Hin as [<- | Hin].
    + exists (total + d). split; [reflexivity | lra].
    + apply IH in Hin; [| now apply segments_measured_tail with prev].
      destruct Hin as [y [-> Hy]]. exists y. split; [reflexivity | lra].
Qed.

Lemma partial_loop_sorted (distance : coord -> coord -> number)
      (rest : list coord) :
  forall prev total i j x y,
    segments_measured distance (prev :: rest) ->
    (i <= j)%nat ->
    nth_error (Num total :: Partial.cumulative_loop distance prev rest (Num total)) i
    = Some x ->
    nth_error (Num total :: Partial.cumulative_loop distance prev rest (Num total)) j
    = Some y ->
    Partial.nle x y = true.
Proof.
  induction rest as [| c rest IH]; intros prev total i j x y Hseg Hij Hi Hj.
  - destruct j as [| j]; [| destruct j; discriminate].
    assert (i = 0)%nat as -> by lia. simpl in Hi, Hj. injection Hi as <-.
    injection Hj as <-. simpl. destruct (Rle_dec total total); [reflexivity | lra].
  - destruct i as [| i].
    + simpl in Hi. injection Hi as <-.
      destruct j as [| j].
      * simpl in Hj. injection Hj as <-. simpl.
        destruct (Rle_dec total total); [reflexivity | lra].
      * change (nth_error
                  (Partial.cumulative_loop distance prev (c :: rest) (Num total))
                  j = Some y) in Hj.
        apply nth_error_In in Hj.
        apply partial_loop_lower in Hj; [| exact Hseg].
        destruct Hj as [y' [-> Hy]]. simpl.
        destruct (Rle_dec total y'); [reflexivity | lra].
    + destruct j as [| j]; [lia |].
      destruct (Hseg 0%nat prev c eq_refl eq_refl) as [d [Ed Hd]].
      simpl in Hi, Hj. rewrite Ed in Hi, Hj. cbn [nadd] in Hi, Hj.
      apply (IH c (total + d) i j x y);
        [now apply segments_measured_tail with prev | lia | | ].
      * exact Hi.
      * exact Hj.
Qed.

(** After a [NaN] the running total stays [NaN]. *)
Lemma partial_loop_NaN (distance : coord -> coord -> number)
      (rest : list coord) :
  forall prev x,
    In x (Partial.cumulative_loop distance prev rest NaN) -> x = NaN.
Proof.
  induction rest as [| c rest IH]; intros prev x Hin; simpl in Hin.
  - contradiction.
  - destruct Hin as [<- | Hin]; [reflexivity | now apply IH with c].
Qed.

Lemma partial_loop_poisoned (distance : coord -> coord -> number)
      (rest : list coord) :
  forall prev total i c1 c2 j x,
    nth_error (prev :: rest) i = Some c1 ->
    nth_error (prev :: rest) (S i) = Some c2 ->
    distance c1 c2 = NaN ->
    (i < j)%nat ->
    nth_error (total :: Partial.cumulative_loop distance prev rest total) j
    = Some x ->
    x = NaN.
Proof.
  induction rest as [| c rest IH]; intros prev total i c1 c2 j x H1 H2 Hd Hij Hj.
  - destruct i; simpl in H2; discriminate.
  - destruct j as [| j]; [lia |].
    destruct i as [| i].
    + simpl in H1, H2. injection H1 as <-. injection H2 as <-.
      simpl in Hj. rewrite Hd in Hj.
      replace (nadd total NaN) with NaN in Hj by (now destruct total).
      destruct j as [| j].
      * simpl in Hj. now injection Hj as <-.
      * simpl in Hj. apply nth_error_In in Hj.
        now apply partial_loop_NaN in Hj.
    + simpl in H1. change (nth_error (c :: rest) (S i) = Some c2) in H2.
      simpl in Hj.
      apply (IH c (nadd total (distance prev c)) i c1 c2 j x H1 H2 Hd);
        [lia | exact Hj].
Qed.

(** With the distance of the real-number model the two definitions of
    the cumulative distances agree. *)
Lemma partial_loop_exact (rest : list coord) :
  forall prev total,
    Partial.cumulative_loop Partial.exact_distance prev rest (Num total)
    = map Num (cumulative_loop prev rest total).
Proof.
  induction rest as [| c rest IH]; intros prev total.
  - reflexivity.
  - cbn [Partial.cumulative_loop cumulative_loop map].
    change (Partial.exact_distance prev c) with (Num (haversineDistance prev c)).
    cbn [nadd]. now rewrite IH.
Qed.

Lemma partial_distances_exact (coordinates : list coord) :
  Partial.calculateCumulativeDistances Partial.exact_distance coordinates
  = map Num (calculateCumulativeDistances coordinates).
Proof.
  destruct coordinates as [| c0 rest]; [reflexivity |].
  unfold Partial.calculateCumulativeDistances, calculateCumulativeDistances.
  cbn [map]. now rewrite partial_loop_exact.
Qed.

(** C7, for a sequence that is not empty and a distance that can be
    [NaN].  [calculateCumulativeDistances] returns a sequence of the
    same length as its input, whose first element is 0 and whose
    element [i + 1] is element [i] plus the distance between
    coordinates [i] and [i + 1].  It is non-decreasing when every one of
    these distances is a number that is not negative; a distance that
    is [NaN] makes every later element [NaN].  Of the empty sequence
    the result is [[0]]. *)
Theorem calculateCumulativeDistances_running_total
        (distance : coord -> coord -> number) :
  Partial.calculateCumulativeDistances distance [] = [Num 0] /\
  forall seq : list coord,
    seq <> [] ->
    let ds := Partial.calculateCumulativeDistances distance seq in
    List.length ds = List.length seq /\
    nth_error ds 0 = Some (Num 0) /\
    (forall i c1 c2,
        nth_error seq i = Some c1 -> nth_error seq (S i) = Some c2 ->
        exists d1, nth_error ds i = Some d1 /\
                   nth_error ds (S i) = Some (nadd d1 (distance c1 c2))) /\
    ((forall i c1 c2,
         nth_error seq i = Some c1 -> nth_error seq (S i) = Some c2 ->
         exists d, distance c1 c2 = Num d /\ 0 <= d) ->
     forall i j x y,
       (i <= j)%nat -> nth_error ds i = Some x -> nth_error ds j = Some y ->
       Partial.nle x y = true) /\
    (forall i c1 c2 j x,
        nth_error seq i = Some c1 -> nth_error seq (S i) = Some c2 ->
        distance c1 c2 = NaN ->
        (i < j)%nat -> nth_error ds j = Some x -> x = NaN).
Proof.
  split; [reflexivity |].
  intros seq Hne ds. subst ds.
  destruct seq as [| c0 rest]; [contradiction |].
  unfold Partial.calculateCumulativeDistances.
  split; [| split; [| split; [| split]]].
  - simpl. now rewrite partial_loop_length.
  - reflexivity.
  - intros i c1 c2. apply partial_loop_step.
  - intros Hseg i j x y. now apply partial_loop_sorted.
  - intros i c1 c2 j x. apply partial_loop_poisoned.
Qed.

(** C7 as stated fails on the empty sequence: the result [[0]] has one
    element, the input none. *)
Lemma calculateCumulativeDistances_empty_length :
  List.length (calculateCumulativeDistances []) <> List.length (@nil coord) /\
  List.length (Partial.calculateCumulativeDistances Partial.exact_distance [])
  <> List.length (@nil coord).
Proof. split; simpl; discriminate. Qed.

(** C7 at two coordinates, with the distance of the real-number model:
    two elements, the second not below the first. *)
Lemma calculateCumulativeDistances_running_total_witness :
  [mkCoord 0 0; mkCoord 1 1] <> [] /\
  List.length
    (Partial.calculateCumulativeDistances Partial.exact_distance
       [mkCoord 0 0; mkCoord 1 1])
  = List.length [mkCoord 0 0; mkCoord 1 1] /\
  Partial.nle (Num 0)
    (nadd (Num 0) (Partial.exact_distance (mkCoord 0 0) (mkCoord 1 1)))
  = true.
Proof.
  assert (Hne : [mkCoord 0 0; mkCoord 1 1] <> []) by discriminate.
  split; [exact Hne |].
  destruct (proj2 (calculateCumulativeDistances_running_total
                     Partial.exact_distance)
              [mkCoord 0 0; mkCoord 1 1] Hne)
    as [Hlen [_ [_ [Hsorted _]]]].
  split; [exact Hlen |].
  apply (Hsorted
           (fun i c1 c2 _ _ =>
              ex_intro _ (haversineDistance c1 c2)
                (conj eq_refl (haversineDistance_nonneg c1 c2)))
           0%nat 1%nat);
    [lia | reflexivity | reflexivity].
Defined.

End CumulativeFacts.

(** ** Properties of the sampling *)

Section SamplingFacts.
Import Service.

Lemma filter_index_map {A C} (f : A -> C) (keep : nat -> bool) (arr : list A) :
  forall index,
    filter_index keep index (map f arr) = map f (filter_index keep index arr).
Proof.
  induction arr as [| x arr IH]; intros index; simpl.
  - reflexivity.
  - rewrite IH. now destruct (keep index).
Qed.

Lemma filter_index_seq (keep : nat -> bool) (n : nat) :
  forall index,
    filter_index keep index (seq index n) = filter keep (seq index n).
Proof.
  induction n as [| n IH]; intros index; simpl.
  - reflexivity.
  - now rewrite IH.
Qed.

Lemma list_by_index {A} (d : A) (l : list A) :
  l = map (fun i => nth i l d) (seq 0 (List.length l)).
Proof.
  induction l as [| x l IH]; simpl.
  - reflexivity.
  - f_equal. rewrite <- seq_shift, map_map. exact IH.
Qed.

Lemma sampleCoords_map {A C} (f : A -> C) (l : list A) :
  sampleCoords (map f l) = map f (sampleCoords l).
Proof.
  unfold sampleCoords. rewrite length_map. apply filter_index_map.
Qed.

Lemma sampleCoords_indices (n : nat) :
  sampleCoords (seq 0 n)
  = filter (fun i => (i mod sample_step n =? 0)%nat) (seq 0 n).
Proof.
  unfold sampleCoords. rewrite length_seq. apply filter_index_seq.
Qed.

Lemma sampleCoords_by_index {A} (d : A) (l : list A) :
  sampleCoords l
  = map (fun i => nth i l d) (sampleCoords (seq 0 (List.length l))).
Proof.
  rewrite <- sampleCoords_map, <- list_by_index. reflexivity.
Qed.

(** The number of multiples of [s] below [n] is the ceiling of [n / s]. *)
Lemma ceil_div_step (n s : nat) :
  (1 <= s)%nat ->
  ((S n + s - 1) / s
   = (n + s - 1) / s + (if (n mod s =? 0)%nat then 1 else 0))%nat /\
  ((n mod s = 0)%nat -> ((n + s - 1) / s * s = n)%nat).
Proof.
  intros Hs.
  pose proof (Nat.div_mod_eq n s) as Hn.
  pose proof (Nat.mod_upper_bound n s ltac:(lia)) as Hr.
  set (q := (n / s)%nat) in *. set (r := (n mod s)%nat) in *.
  destruct (Nat.eqb_spec r 0) as [Hr0 | Hr0].
  - assert (E1 : ((n + s - 1) / s = q)%nat).
    { symmetry. apply (Nat.div_unique _ _ _ (s - 1)); lia. }
    assert (E2 : ((S n + s - 1) / s = q + 1)%nat).
    { symmetry. apply (Nat.div_unique _ _ _ 0); lia. }
    rewrite E1, E2. split; lia.
  - assert (E1 : ((n + s - 1) / s = q + 1)%nat).
    { symmetry. apply (Nat.div_unique _ _ _ (r - 1)); lia. }
    assert (E2 : ((S n + s - 1) / s = q + 1)%nat).
    { symmetry. apply (Nat.div_unique _ _ _ r); lia. }
    rewrite E1, E2. split; lia.
Qed.

Lemma multiples_below (s : nat) :
  (1 <= s)%nat ->
  forall n,
    filter (fun i => (i mod s =? 0)%nat) (seq 0 n)
    = map (fun k => (k * s)%nat) (seq 0 ((n + s - 1) / s)).
Proof.
  intros Hs n. induction n as [| n IH].
  - replace ((0 + s - 1) / s)%nat with 0%nat; [reflexivity |].
    symmetry. apply Nat.div_small. lia.
  - destruct (ceil_div_step n s Hs) as [Hstep Hmul].
    rewrite seq_S, filter_app, IH, Hstep. cbn [filter Nat.add].
    destruct (Nat.eqb_spec (n mod s) 0) as [Hr | Hr].
    + rewrite Nat.add_1_r, seq_S, map_app. cbn [map Nat.add].
      now rewrite (Hmul Hr).
    + now rewrite Nat.add_0_r, app_nil_r.
Qed.

Lemma sample_step_pos (n : nat) : (1 <= sample_step n)%nat.
Proof. unfold sample_step. lia. Qed.

Lemma sampleCoords_length {A} (l : list A) :
  let n := List.length l in
  List.length (sampleCoords l)
  = ((n + sample_step n - 1) / sample_step n)%nat.
Proof.
  intros n.
  assert (E : List.length (sampleCoords l)
              = List.length (sampleCoords (seq 0 n))).
  { destruct l as [| x l'].
    - reflexivity.
    - rewrite (sampleCoords_by_index x (x :: l')), length_map. reflexivity. }
  rewrite E, sampleCoords_indices, (multiples_below _ (sample_step_pos n)).
  now rewrite length_map, length_seq.
Qed.

Lemma sampleCoords_nth_error {A} (l : list A) (k : nat) :
  nth_error (sampleCoords l) k
  = nth_error l (k * sample_step (List.length l)).
Proof.
  destruct l as [| x l'].
  { simpl. now destruct k. }
  remember (x :: l') as l eqn:El. clear El.
  rewrite (sampleCoords_by_index x l), sampleCoords_indices.
  set (n := List.length l). set (s := sample_step n).
  pose proof (sample_step_pos n) as Hs. fold s in Hs.
  rewrite (multiples_below s Hs), map_map.
  set (m := ((n + s - 1) / s)%nat).
  assert (Hm : (n <= m * s)%nat).
  { pose proof (Nat.div_mod_eq (n + s - 1) s) as Hd.
    pose proof (Nat.mod_upper_bound (n + s - 1) s ltac:(lia)) as Hr.
    fold m in Hd. rewrite (Nat.mul_comm m s). lia. }
  assert (Hm' : forall j, (j < m)%nat -> (j * s < n)%nat).
  { intros j Hj.
    pose proof (Nat.div_mod_eq (n + s - 1) s) as Hd.
    fold m in Hd.
    assert (s * S j <= s * m)%nat by (apply Nat.mul_le_mono_l; lia).
    rewrite (Nat.mul_comm j s). lia. }
  destruct (Nat.lt_ge_cases k m) as [Hk | Hk].
  - rewrite nth_error_map, nth_error_seq.
    destruct (Nat.ltb_spec k m) as [_ | Hge]; [| lia].
    cbn [option_map Nat.add].
    assert (Hin : (k * s < n)%nat) by (apply Hm'; exact Hk).
    symmetry. apply nth_error_nth'. exact Hin.
  - transitivity (@None A).
    + apply nth_error_None. now rewrite length_map, length_seq.
    + symmetry. apply nth_error_None. fold n.
      assert (m * s <= k * s)%nat by (apply Nat.mul_le_mono_r; exact Hk).
      lia.
Qed.

(** C6.  With [maxPoints = 50] and [stride = max(1, floor(len / 50))],
    the sampled sequence of a non-empty [coordinates] is the sequence of
    the coordinates at the indices that are multiples of [stride], in
    order.  So the first coordinate is kept, the sampled length is the
    ceiling of [len / stride], and the last index [len - 1] is among the
    kept indices if and only if it is a multiple of [stride]. *)
Theorem sampleCoords_keeps_multiples_of_stride (coordinates : list Geo.coord) :
  coordinates <> [] ->
  let len := List.length coordinates in
  let stride := Nat.max 1 (len / 50) in
  let kept := filter (fun i => (i mod stride =? 0)%nat) (seq 0 len) in
  (forall d, sampleCoords coordinates = map (fun i => nth i coordinates d) kept) /\
  (forall k, nth_error (sampleCoords coordinates) k
             = nth_error coordinates (k * stride)) /\
  In 0%nat kept /\
  hd_error (sampleCoords coordinates) = hd_error coordinates /\
  List.length (sampleCoords coordinates) = ((len + stride - 1) / stride)%nat /\
  ((List.length (sampleCoords coordinates) - 1) * stride < len
   <= List.length (sampleCoords coordinates) * stride)%nat /\
  (In (len - 1)%nat kept <-> ((len - 1) mod stride = 0)%nat).
Proof.
  intros Hne len stride kept.
  assert (Hlen : (0 < len)%nat).
  { subst len. destruct coordinates; [contradiction | simpl; lia]. }
  assert (Hstride : stride = sample_step len) by reflexivity.
  assert (Hs : (1 <= stride)%nat) by (subst stride; lia).
  assert (Hkept : forall i, In i kept <-> (i < len)%nat /\ (i mod stride = 0)%nat).
  { intros i. unfold kept. rewrite filter_In, in_seq, Nat.eqb_eq. lia. }
  assert (Hsz : List.length (sampleCoords coordinates)
                = ((len + stride - 1) / stride)%nat).
  { rewrite Hstride. apply (sampleCoords_length coordinates). }
  repeat match goal with |- _ /\ _ => split end.
  - intros d. rewrite (sampleCoords_by_index d), sampleCoords_indices.
    reflexivity.
  - intros k. rewrite Hstride. apply sampleCoords_nth_error.
  - apply Hkept. split; [exact Hlen |]. apply Nat.Div0.mod_0_l.
  - pose proof (sampleCoords_nth_error coordinates 0) as H0.
    simpl in H0. destruct (sampleCoords coordinates), coordinates;
      simpl in *; congruence.
  - exact Hsz.
  - rewrite Hsz.
    pose proof (Nat.div_mod_eq (len + stride - 1) stride) as Hd.
    pose proof (Nat.mod_upper_bound (len + stride - 1) stride ltac:(lia)) as Hr.
    set (m := ((len + stride - 1) / stride)%nat) in *.
    destruct m as [| m']; [lia |].
    replace (S m' - 1)%nat with m' by lia.
    rewrite (Nat.mul_comm m' stride). lia.
  - rewrite Hsz.
    pose proof (Nat.div_mod_eq (len + stride - 1) stride) as Hd.
    pose proof (Nat.mod_upper_bound (len + stride - 1) stride ltac:(lia)) as Hr.
    rewrite (Nat.mul_comm _ stride). lia.
  - split.
    + intros Hin. apply Hkept in Hin. tauto.
    + intros Hmod. apply Hkept. split; [lia | exact Hmod].
Qed.

Lemma sampleCoords_keeps_multiples_of_stride_witness :
  repeat (Geo.mkCoord 0 0) 120 <> [] /\
  List.length (sampleCoords (repeat (Geo.mkCoord 0 0) 120)) = 60%nat.
Proof.
  assert (Hne : repeat (Geo.mkCoord 0 0) 120 <> []) by discriminate.
  split; [exact Hne |].
  exact (proj1 (proj2 (proj2 (proj2 (proj2
           (sampleCoords_keeps_multiples_of_stride _ Hne)))))).
Defined.

End SamplingFacts.

(** ** Properties of the statistics *)

Section StatisticsFacts.
Import JS Service.
Context {B : Builtins}.

(** A positive difference is a number, and so is a negative one. *)
Lemma gt0_inv (n : number) : gt0 n = true -> exists d, n = Num d /\ 0 < d.
Proof.
  destruct n as [| d]; simpl; [discriminate |].
  destruct (Rlt_dec 0 d); [| discriminate]. intros _. now exists d.
Qed.

Lemma lt0_inv (n : number) : lt0 n = true -> exists d, n = Num d /\ d < 0.
Proof.
  destruct n as [| d]; simpl; [discriminate |].
  destruct (Rlt_dec d 0); [| discriminate]. intros _. now exists d.
Qed.

Lemma gain_loop_nonneg (rest : list jsval) :
  forall prev gain,
    0 <= gain ->
    exists g, gain_loop prev rest (Num gain) = Num g /\ 0 <= g.
Proof.
  induction rest as [| e rest IH]; intros prev gain Hg; simpl.
  - now exists gain.
  - destruct (gt0 (js_sub e prev)) eqn:Hd.
    + apply gt0_inv in Hd. destruct Hd as [d [-> Hd]]. simpl.
      apply IH. lra.
    + now apply IH.
Qed.

Lemma loss_loop_nonneg (rest : list jsval) :
  forall prev loss,
    0 <= loss ->
    exists l, loss_loop prev rest (Num loss) = Num l /\ 0 <= l.
Proof.
  induction rest as [| e rest IH]; intros prev loss Hl; simpl.
  - now exists loss.
  - destruct (lt0 (js_sub e prev)) eqn:Hd.
    + apply lt0_inv in Hd. destruct Hd as [d [-> Hd]]. simpl.
      apply IH. pose proof (Rabs_pos d). lra.
    + now apply IH.
Qed.

(** C10.  [calculateElevationGain] and [calculateElevationLoss] return
    a non-negative number for every array of elevations, and 0 for an
    array of length 0 or 1. *)
Theorem elevation_gain_loss_nonneg (elevations : list jsval) :
  (exists g, calculateElevationGain elevations = Num g /\ 0 <= g) /\
  (exists l, calculateElevationLoss elevations = Num l /\ 0 <= l) /\
  calculateElevationGain [] = Num 0 /\
  calculateElevationLoss [] = Num 0 /\
  (forall e, calculateElevationGain [e] = Num 0) /\
  (forall e, calculateElevationLoss [e] = Num 0).
Proof.
  repeat split.
  - destruct elevations as [| e0 rest]; simpl.
    + exists 0. split; [reflexivity | lra].
    + apply gain_loop_nonneg. lra.
  - destruct elevations as [| e0 rest]; simpl.
    + exists 0. split; [reflexivity | lra].
    + apply loss_loop_nonneg. lra.
Qed.

Lemma last_cons_default {A} (rest : list A) :
  forall a d, last (a :: rest) d = last rest a.
Proof.
  induction rest as [| x rest IH]; intros a d.
  - reflexivity.
  - change (last (x :: rest) d = last (x :: rest) a).
    now rewrite !IH.
Qed.

(** On numbers the two loops telescope. *)
Lemma gain_loss_loops_telescope (rest : list R) :
  forall prev gain loss,
    exists g l,
      gain_loop (JNum prev) (map JNum rest) (Num gain) = Num g /\
      loss_loop (JNum prev) (map JNum rest) (Num loss) = Num l /\
      g - l = (gain - loss) + (last rest prev - prev).
Proof.
  induction rest as [| e rest IH]; intros prev gain loss.
  - exists gain, loss. simpl. repeat split. lra.
  - cbn [map gain_loop loss_loop js_sub ToNumber gt0 lt0 nadd Math_abs].
    rewrite last_cons_default.
    destruct (Rlt_dec 0 (e - prev)) as [Hup | Hnup];
      destruct (Rlt_dec (e - prev) 0) as [Hdn | Hndn]; try lra.
    + destruct (IH e (gain + (e - prev)) loss) as [g [l [Eg [El Eq]]]].
      exists g, l. repeat split; [exact Eg | exact El | lra].
    + destruct (IH e gain (loss + Rabs (e - prev))) as [g [l [Eg [El Eq]]]].
      exists g, l. repeat split; [exact Eg | exact El |].
      rewrite Rabs_left in Eq by exact Hdn. lra.
    + destruct (IH e gain loss) as [g [l [Eg [El Eq]]]].
      exists g, l. repeat split; [exact Eg | exact El | lra].
Qed.

Lemma gain_minus_loss (first : R) (rest : list R) :
  nsub (calculateElevationGain (map JNum (first :: rest)))
       (calculateElevationLoss (map JNum (first :: rest)))
  = Num (last rest first - first).
Proof.
  cbn [map calculateElevationGain calculateElevationLoss].
  destruct (gain_loss_loops_telescope rest first 0 0) as [g [l [-> [-> Eq]]]].
  simpl. f_equal. lra.
Qed.

Lemma last_map {A C} (f : A -> C) (l : list A) (d : A) :
  last (map f l) (f d) = f (last l d).
Proof.
  induction l as [| x l IH]; [reflexivity |].
  destruct l as [| y l']; [reflexivity |].
  exact IH.
Qed.

Lemma whole_numbers (elevations : list Z) :
  Ranges.whole elevations = map JNum (map IZR elevations).
Proof. unfold Ranges.whole. now rewrite map_map. Qed.

Lemma gain_minus_loss_whole (first : Z) (rest : list Z) :
  nsub (calculateElevationGain (Ranges.whole (first :: rest)))
       (calculateElevationLoss (Ranges.whole (first :: rest)))
  = Num (IZR (last rest first - first)).
Proof.
  rewrite whole_numbers.
  change (map IZR (first :: rest)) with (IZR first :: map IZR rest).
  rewrite (gain_minus_loss (IZR first) (map IZR rest)).
  now rewrite last_map, minus_IZR.
Qed.




End StatisticsFacts.

(** ** Properties of the providers *)

Section ProviderFacts.
Import JS Geo Service.
Context {B : Builtins}.
Variable net : network.

Local Open Scope service_scope.

Lemma getSingleElevationUSGS3DEP_trace (c : coord) (tr : trace) :
  snd (getSingleElevationUSGS3DEP net c tr) = tr ++ [UsgsIdentify c].
Proof.
  unfold getSingleElevationUSGS3DEP, bind, fetch_usgs, json, throw, ret.
  destruct (usgs_identify net tr c) as [| status body]; [reflexivity |].
  destruct (ok status); cbn [negb]; [| reflexivity].
  destruct body as [data |]; [| reflexivity].
  now destruct (error data).
Qed.

Lemma usgs_loop_run (sampledCoords : list coord) :
  forall allElevationData tr,
    usgs_loop net sampledCoords allElevationData tr
    = (Ok (allElevationData ++ recorded_elevations net tr sampledCoords),
       tr ++ map UsgsIdentify sampledCoords).
Proof.
  induction sampledCoords as [| c rest IH]; intros acc tr.
  - simpl. unfold ret. now rewrite !app_nil_r.
  - cbn [usgs_loop recorded_elevations map].
    unfold bind at 1. unfold try_catch, bind at 1.
    unfold recorded_elevation.
    pose proof (getSingleElevationUSGS3DEP_trace c tr) as Htr.
    destruct (getSingleElevationUSGS3DEP net c tr) as [[e | err] tr1];
      simpl in Htr; subst tr1; cbn [fst ret];
      rewrite IH, <- !app_assoc; reflexivity.
Qed.

Lemma recorded_elevations_length (sampledCoords : list coord) :
  forall tr,
    List.length (recorded_elevations net tr sampledCoords)
    = List.length sampledCoords.
Proof.
  induction sampledCoords as [| c rest IH]; intros tr; simpl.
  - reflexivity.
  - now rewrite IH.
Qed.

Lemma recorded_elevations_nth (sampledCoords : list coord) :
  forall tr i c,
    nth_error sampledCoords i = Some c ->
    nth_error (recorded_elevations net tr sampledCoords) i
    = Some (recorded_elevation net
              (tr ++ map UsgsIdentify (firstn i sampledCoords)) c).
Proof.
  induction sampledCoords as [| c0 rest IH]; intros tr i c Hc.
  - destruct i; discriminate.
  - destruct i as [| i]; simpl in Hc.
    + injection Hc as <-. simpl. now rewrite app_nil_r.
    + cbn [recorded_elevations nth_error firstn map].
      rewrite (IH _ _ _ Hc), <- app_assoc. reflexivity.
Qed.

Lemma map_index_length {A C} (f : A -> nat -> C) (arr : list A) :
  forall index, List.length (map_index f index arr) = List.length arr.
Proof.
  induction arr as [| x arr IH]; intros index; simpl.
  - reflexivity.
  - now rewrite IH.
Qed.

Lemma map_index_nth_error {A C} (f : A -> nat -> C) (arr : list A) :
  forall index k x,
    nth_error arr k = Some x ->
    nth_error (map_index f index arr) k = Some (f x (index + k)%nat).
Proof.
  induction arr as [| y arr IH]; intros index k x Hx.
  - destruct k; discriminate.
  - destruct k as [| k]; simpl in Hx.
    + injection Hx as <-. simpl. now rewrite Nat.add_0_r.
    + simpl. rewrite (IH (S index) k x Hx). f_equal. f_equal. lia.
Qed.

(** The primary provider, run: it never throws. *)
Lemma getElevationFromUSGS3DEP_run (coordinates : list coord) (tr : trace) :
  let sampledCoords := sampleCoords coordinates in
  let allElevationData := recorded_elevations net tr sampledCoords in
  let distances := calculateCumulativeDistances sampledCoords in
  getElevationFromUSGS3DEP net coordinates tr
  = (Ok (map_index
           (fun coord index =>
              {| sample_longitude := lng coord;
                 sample_latitude := lat coord;
                 elevation := nth index allElevationData JUndefined;
                 distance := nth index distances 0;
                 distanceKm := nth index distances 0 / 1000 |})
           0 sampledCoords),
     tr ++ map UsgsIdentify sampledCoords).
Proof.
  intros sampledCoords allElevationData distances.
  unfold getElevationFromUSGS3DEP, try_catch, bind.
  fold sampledCoords. rewrite usgs_loop_run. reflexivity.
Qed.

Lemma map_index_nth_error_inv {A C} (f : A -> nat -> C) (arr : list A) :
  forall index k y,
    nth_error (map_index f index arr) k = Some y ->
    exists x, nth_error arr k = Some x /\ y = f x (index + k)%nat.
Proof.
  intros index k y Hy.
  destruct (nth_error arr k) as [x |] eqn:Hx.
  - rewrite (map_index_nth_error f arr index k x Hx) in Hy.
    injection Hy as <-. now exists x.
  - apply nth_error_None in Hx.
    rewrite <- (map_index_length f arr index) in Hx.
    apply nth_error_None in Hx. congruence.
Qed.

(** With two coordinates or more, [getElevationProfile] returns the
    profile of the primary provider's points. *)
Lemma getElevationProfile_primary (coordinates : list coord) (tr : trace) :
  (2 <= List.length coordinates)%nat ->
  let sampledCoords := sampleCoords coordinates in
  let allElevationData := recorded_elevations net tr sampledCoords in
  let distances := calculateCumulativeDistances sampledCoords in
  exists prof,
    getElevationProfile net (Some coordinates) tr
    = (Ok prof, tr ++ map UsgsIdentify sampledCoords) /\
    points prof
    = map_index
        (fun coord index =>
           {| sample_longitude := lng coord;
              sample_latitude := lat coord;
              elevation := nth index allElevationData JUndefined;
              distance := nth index distances 0;
              distanceKm := nth index distances 0 / 1000 |})
        0 sampledCoords.
Proof.
  intros Hlen sampledCoords allElevationData distances.
  unfold getElevationProfile.
  destruct (Nat.ltb_spec (List.length coordinates) 2) as [Hlt | _]; [lia |].
  unfold bind, try_catch. rewrite getElevationFromUSGS3DEP_run.
  fold sampledCoords allElevationData distances.
  assert (Hne : sampledCoords <> []).
  { pose proof (sampleCoords_nth_error coordinates 0) as H0.
    fold sampledCoords in H0. simpl in H0.
    destruct coordinates as [| c0 cs]; [simpl in Hlen; lia |].
    intros E. rewrite E in H0. discriminate. }
  destruct sampledCoords as [| s0 ss] eqn:Es; [contradiction |].
  cbn [map_index]. eexists. split; reflexivity.
Qed.


(** C4.  In the per-point loop of the primary provider a lookup that
    fails is replaced by the elevation 0 for that point alone, and the
    loop goes on: the attempt returns (it never throws), every sampled
    point has been queried once, in order, and point [i] carries what
    its own lookup returned, or 0 when that lookup threw. *)
Theorem usgs_point_failure_is_local (coordinates : list coord) (tr : trace) :
  let sampledCoords := sampleCoords coordinates in
  exists elevationData,
    getElevationFromUSGS3DEP net coordinates tr
    = (Ok elevationData, tr ++ map UsgsIdentify sampledCoords) /\
    List.length elevationData = List.length sampledCoords /\
    forall i c,
      nth_error sampledCoords i = Some c ->
      exists p,
        nth_error elevationData i = Some p /\
        sample_longitude p = lng c /\ sample_latitude p = lat c /\
        elevation p
        = match fst (getSingleElevationUSGS3DEP net c
                       (tr ++ map UsgsIdentify (firstn i sampledCoords))) with
          | Ok e => e
          | Throw _ => JNum 0
          end.
Proof.
  intros sampledCoords. eexists. split; [| split].
  - apply getElevationFromUSGS3DEP_run.
  - apply map_index_length.
  - intros i c Hc. eexists. split; [| split; [| split]].
    + apply (map_index_nth_error _ _ 0 i c Hc).
    + reflexivity.
    + reflexivity.
    + cbn [elevation Nat.add].
      apply nth_error_nth. now apply recorded_elevations_nth.
Qed.

(** C1: what the code does when the lookup of every sampled point fails.
    Each failure is caught in the loop of the primary provider and
    replaced by 0 (C4), so the primary attempt succeeds and the [catch]
    of [getElevationProfile], where the fallback is called, is never
    entered: a profile of the sampled points is returned with elevation
    0 everywhere, the point queries are the only requests issued, and
    the fallback provider is not asked. *)
Theorem all_points_fail_zero_profile (coordinates : list coord) (tr : trace) :
  let sampledCoords := sampleCoords coordinates in
  (2 <= List.length coordinates)%nat ->
  (forall i c,
      nth_error sampledCoords i = Some c ->
      exists e,
        fst (getSingleElevationUSGS3DEP net c
               (tr ++ map UsgsIdentify (firstn i sampledCoords))) = Throw e) ->
  exists prof,
    getElevationProfile net (Some coordinates) tr
    = (Ok prof, tr ++ map UsgsIdentify sampledCoords) /\
    List.length (points prof) = List.length sampledCoords /\
    (forall p, In p (points prof) -> elevation p = JNum 0) /\
    (forall locations,
        ~ In (OpenElevationLookup locations) (map UsgsIdentify sampledCoords)).
Proof.
  intros sampledCoords Hlen Hfail.
  destruct (getElevationProfile_primary coordinates tr Hlen)
    as [prof [Hrun Hpoints]].
  fold sampledCoords in Hrun, Hpoints.
  exists prof. split; [exact Hrun |]. split; [| split].
  - rewrite Hpoints. apply map_index_length.
  - intros p Hin. rewrite Hpoints in Hin.
    apply In_nth_error in Hin. destruct Hin as [k Hk].
    apply map_index_nth_error_inv in Hk. destruct Hk as [c [Hc ->]].
    cbn [elevation Nat.add].
    rewrite (nth_error_nth _ _ _ (recorded_elevations_nth _ tr k c Hc)).
    unfold recorded_elevation.
    destruct (Hfail k c Hc) as [e ->]. reflexivity.
  - intros locations Hin. apply in_map_iff in Hin.
    destruct Hin as [c [Hc _]]. discriminate.
Qed.

(** C5.  For an absent argument and for zero or one coordinate,
    [getElevationProfile] throws the input error at once: no request has
    been issued ([tr] is unchanged). *)
Theorem short_input_rejected_before_any_request (tr : trace) :
  getElevationProfile net None tr = (Throw InvalidCoordinates, tr) /\
  getElevationProfile net (Some []) tr = (Throw InvalidCoordinates, tr) /\
  forall c, getElevationProfile net (Some [c]) tr = (Throw InvalidCoordinates, tr).
Proof. repeat split. Qed.


End ProviderFacts.

(** ** The batch provider and the count of its results *)

Section FallbackFacts.
Import JS Geo Service.
Context {B : Builtins}.
Variable net : network.

Local Open Scope service_scope.

Lemma results_map_fits (sampledCoords : list coord) (distances : list R)
      (rs : list oe_result) :
  forall index tr,
    (index + List.length rs <= List.length sampledCoords)%nat ->
    exists data,
      map_index_M (result_to_sample sampledCoords distances) index rs tr
      = (Ok data, tr) /\
      List.length data = List.length rs /\
      forall i r,
        nth_error rs i = Some r ->
        exists c p,
          nth_error sampledCoords (index + i) = Some c /\
          nth_error data i = Some p /\
          elevation p = oe_elevation r /\
          sample_longitude p = lng c /\ sample_latitude p = lat c /\
          distance p = nth (index + i) distances 0.
Proof.
  induction rs as [| r0 rs IH]; intros index tr Hfit.
  - exists []. repeat split. intros i r Hr. destruct i; discriminate.
  - simpl in Hfit.
    destruct (nth_error sampledCoords index) as [c0 |] eqn:Hc0.
    2:{ apply nth_error_None in Hc0. lia. }
    destruct (IH (S index) tr ltac:(lia)) as [data [Hrun [Hlen Hnth]]].
    eexists. split; [| split].
    + cbn [map_index_M]. unfold bind at 1. unfold result_to_sample at 1.
      rewrite Hc0. unfold ret at 1. unfold bind at 1. rewrite Hrun.
      reflexivity.
    + simpl. now rewrite Hlen.
    + intros i r Hr. destruct i as [| i]; simpl in Hr.
      * injection Hr as <-. exists c0. eexists.
        rewrite Nat.add_0_r. split; [exact Hc0 |].
        split; [reflexivity |]. repeat split.
      * destruct (Hnth i r Hr) as [c [p [Hc [Hp Hrest]]]].
        exists c, p. rewrite <- Nat.add_succ_comm.
        split; [exact Hc |]. split; [exact Hp | exact Hrest].
Qed.

Lemma results_map_overflows (sampledCoords : list coord) (distances : list R)
      (rs : list oe_result) :
  forall index tr,
    rs <> [] ->
    (List.length sampledCoords < index + List.length rs)%nat ->
    map_index_M (result_to_sample sampledCoords distances) index rs tr
    = (Throw TypeError, tr).
Proof.
  induction rs as [| r0 rs IH]; intros index tr Hne Hover; [contradiction |].
  cbn [map_index_M]. unfold bind at 1. unfold result_to_sample at 1.
  destruct (nth_error sampledCoords index) as [c0 |] eqn:Hc0.
  - assert (Hin : (index < List.length sampledCoords)%nat).
    { apply nth_error_Some. congruence. }
    unfold ret at 1. unfold bind at 1.
    rewrite IH; [reflexivity | | simpl in Hover; lia].
    destruct rs; [simpl in Hover; lia | discriminate].
  - reflexivity.
Qed.

(** C2, as the code has it.  The batch provider does not compare the
    number of results with the number of points sent.  A reply with more
    results than points makes the attempt fail, on the coordinate that
    is missing.  A reply with as many results or fewer is accepted: the
    attempt returns one sample per result, result [i] paired with the
    sampled coordinate [i] and its cumulative distance. *)
Theorem open_elevation_result_count
        (coordinates : list coord) (tr : trace) (status : nat)
        (rs : list oe_result) :
  let sampledCoords := sampleCoords coordinates in
  let locations :=
    map (fun coord => {| latitude := lat coord; longitude := lng coord |})
      sampledCoords in
  let distances := calculateCumulativeDistances sampledCoords in
  open_elevation_lookup net tr locations
  = HttpResponse status (Some {| results := Some rs |}) ->
  ok status = true ->
  ((List.length sampledCoords < List.length rs)%nat ->
   getElevationFromOpenElevation net coordinates tr
   = (Throw TypeError, tr ++ [OpenElevationLookup locations])) /\
  ((List.length rs <= List.length sampledCoords)%nat ->
   exists data,
     getElevationFromOpenElevation net coordinates tr
     = (Ok data, tr ++ [OpenElevationLookup locations]) /\
     List.length data = List.length rs /\
     forall i r,
       nth_error rs i = Some r ->
       exists c p,
         nth_error sampledCoords i = Some c /\
         nth_error data i = Some p /\
         elevation p = oe_elevation r /\
         sample_longitude p = lng c /\ sample_latitude p = lat c /\
         distance p = nth i distances 0).
Proof.
  intros sampledCoords locations distances Hreply Hok.
  assert (Hrun :
    getElevationFromOpenElevation net coordinates tr
    = try_catch
        (map_index_M (result_to_sample sampledCoords distances) 0 rs)
        (fun error => throw error)
        (tr ++ [OpenElevationLookup locations])).
  { unfold getElevationFromOpenElevation, try_catch, bind, fetch_open_elevation.
    fold sampledCoords locations. rewrite Hreply, Hok. reflexivity. }
  split.
  - intros Hover. rewrite Hrun. unfold try_catch.
    rewrite results_map_overflows; [reflexivity | | simpl; exact Hover].
    destruct rs; [simpl in Hover; lia | discriminate].
  - intros Hfit.
    destruct (results_map_fits sampledCoords distances rs 0
                (tr ++ [OpenElevationLookup locations]) Hfit)
      as [data [Hmap [Hlen Hnth]]].
    exists data. split; [| split; [exact Hlen | exact Hnth]].
    rewrite Hrun. unfold try_catch. now rewrite Hmap.
Qed.

End FallbackFacts.

(** ** The parse of the primary provider's reply *)

Section ParseFacts.
Import JS Geo Service.

Context {B : Builtins}.

(** The [if] chain without its last branch. *)
Lemma extractElevation_branches (data : usgs_data) :
  extractElevation data
  = if not_undefined_or_null (value data) then value data
    else match catalogItems data with
         | Some {| features := Some (feature :: _) |} =>
             match feature_attributes feature with
             | Some attrs =>
                 if not_undefined (Pixel_Value attrs) then Pixel_Value attrs
                 else JNum 0
             | None => JNum 0
             end
         | _ => JNum 0
         end.
Proof.
  unfold extractElevation.
  destruct (value data) eqn:Hv; cbn [not_undefined_or_null]; try reflexivity;
    cbn [truthy]; rewrite andb_false_r; reflexivity.
Qed.

End ParseFacts.

Section ParseClaim.
Import JS Geo Service.
Context {B : Builtins}.

(** C3: the code at a reply whose [value] is a string.  The first test
    of the chain, [data.value !== undefined && data.value !== null],
    takes every such reply, whatever its [name]: the elevation is the
    string itself.  The branch that parses the first token of a
    ["Pixel"] reply is never reached: the result does not depend on
    [parseFloat].  The claim has 12.5 for the reply
    [{ name: "Pixel", value: "12.5 7" }]; the code has the string. *)
Theorem extractElevation_string_value_unparsed :
  (forall err s cat nm,
      extractElevation
        {| error := err; value := JStr s; catalogItems := cat; name := nm |}
      = JStr s) /\
  extractElevation Examples.pixel_string = JStr "12.5 7" /\
  (forall c tr,
      fst (getSingleElevationUSGS3DEP Examples.usgs_pixel_string c tr)
      = Ok (JStr "12.5 7")) /\
  (forall (B' : Builtins) data,
      extractElevation (B := B') data = extractElevation (B := B) data).
Proof.
  split; [| split; [| split]].
  - intros err s cat nm. reflexivity.
  - reflexivity.
  - intros c tr. reflexivity.
  - intros B' data.
    rewrite (extractElevation_branches (B := B')), extractElevation_branches.
    reflexivity.
Qed.

End ParseClaim.

(** ** The theorems at concrete inputs *)

Section ClosedExamples.
Import JS Geo Service Examples.


Lemma usgs_down_every_lookup_fails (c : coord) (tr : trace) :
  fst (getSingleElevationUSGS3DEP (B := opaque_strings) usgs_down c tr)
  = Throw (HttpError 500).
Proof. reflexivity. Qed.

(** C1 at a concrete network.  USGS answers HTTP 500 to both points and
    Open-Elevation would answer 100 for each: the profile returned has
    elevation 0 at both points, and the only requests made are the two
    point queries. *)
Lemma usgs_down_fallback_not_attempted :
  (forall c tr,
      fst (getSingleElevationUSGS3DEP (B := opaque_strings) usgs_down c tr)
      = Throw (HttpError 500)) /\
  exists prof,
    getElevationProfile (B := opaque_strings) usgs_down (Some [c_a; c_b]) []
    = (Ok prof, [UsgsIdentify c_a; UsgsIdentify c_b]) /\
    map elevation (points prof) = [JNum 0; JNum 0] /\
    ~ In (OpenElevationLookup
            [ {| latitude := lat c_a; longitude := lng c_a |};
              {| latitude := lat c_b; longitude := lng c_b |} ])
         (snd (getElevationProfile (B := opaque_strings) usgs_down (Some [c_a; c_b]) [])).
Proof.
  split; [exact usgs_down_every_lookup_fails |].
  destruct (getElevationProfile_primary (B := opaque_strings) usgs_down
              [c_a; c_b] [] ltac:(simpl; lia)) as [prof [Hrun Hpoints]].
  exists prof. split; [exact Hrun |]. split.
  - rewrite Hpoints. reflexivity.
  - rewrite Hrun. cbn [snd]. simpl.
    intros [H | [H | []]]; discriminate.
Qed.

Lemma all_points_fail_zero_profile_witness :
  (2 <= List.length [c_a; c_b])%nat /\
  exists prof,
    getElevationProfile (B := opaque_strings) usgs_down (Some [c_a; c_b]) []
    = (Ok prof, [] ++ map UsgsIdentify (sampleCoords [c_a; c_b])) /\
    forall p, In p (points prof) -> elevation p = JNum 0.
Proof.
  assert (Hlen : (2 <= List.length [c_a; c_b])%nat) by (simpl; lia).
  split; [exact Hlen |].
  destruct (all_points_fail_zero_profile (B := opaque_strings) usgs_down
              [c_a; c_b] [] Hlen
              (fun i c _ => ex_intro _ (HttpError 500)
                              (usgs_down_every_lookup_fails c _)))
    as [prof [Hrun [_ [Hzero _]]]].
  exists prof. split; [exact Hrun | exact Hzero].
Defined.

(** C4 at a network that fails the first point only: the first sample
    has elevation 0, the second the 1500 of its own lookup. *)
Lemma usgs_point_failure_is_local_witness :
  nth_error (sampleCoords [c_a; c_b]) 0 = Some c_a /\
  nth_error (sampleCoords [c_a; c_b]) 1 = Some c_b /\
  exists elevationData p q,
    getElevationFromUSGS3DEP (B := opaque_strings) usgs_first_point_fails
      [c_a; c_b] []
    = (Ok elevationData, [UsgsIdentify c_a; UsgsIdentify c_b]) /\
    nth_error elevationData 0 = Some p /\ elevation p = JNum 0 /\
    nth_error elevationData 1 = Some q /\ elevation q = JNum 1500.
Proof.
  assert (Ha : nth_error (sampleCoords [c_a; c_b]) 0 = Some c_a)
    by reflexivity.
  assert (Hb : nth_error (sampleCoords [c_a; c_b]) 1 = Some c_b)
    by reflexivity.
  split; [exact Ha |]. split; [exact Hb |].
  destruct (usgs_point_failure_is_local (B := opaque_strings)
              usgs_first_point_fails [c_a; c_b] [])
    as [elevationData [Hrun [_ Hnth]]].
  destruct (Hnth 0%nat c_a Ha) as [p [Hp [_ [_ Ep]]]].
  destruct (Hnth 1%nat c_b Hb) as [q [Hq [_ [_ Eq]]]].
  exists elevationData, p, q.
  split; [exact Hrun |]. split; [exact Hp |]. split; [exact Ep |].
  split; [exact Hq | exact Eq].
Defined.

(** C2 as stated fails.  Two points are sent and one result comes back:
    the attempt succeeds, with a single sample. *)
Lemma short_batch_accepted :
  List.length (sampleCoords [c_a; c_b]) = 2%nat /\
  exists p,
    getElevationFromOpenElevation short_batch [c_a; c_b] []
    = (Ok [p],
       [OpenElevationLookup
          [ {| latitude := lat c_a; longitude := lng c_a |};
            {| latitude := lat c_b; longitude := lng c_b |} ]]) /\
    elevation p = JNum 100.
Proof.
  split; [reflexivity |].
  eexists. split; reflexivity.
Qed.

Lemma open_elevation_result_count_witness :
  (List.length (sampleCoords [c_a; c_b]) < 3)%nat /\
  (1 <= List.length (sampleCoords [c_a; c_b]))%nat /\
  fst (getElevationFromOpenElevation long_batch [c_a; c_b] [])
  = Throw TypeError /\
  exists data,
    fst (getElevationFromOpenElevation short_batch [c_a; c_b] []) = Ok data /\
    List.length data = 1%nat.
Proof.
  assert (H3 : (List.length (sampleCoords [c_a; c_b]) < 3)%nat)
    by (simpl; lia).
  assert (H1 : (1 <= List.length (sampleCoords [c_a; c_b]))%nat)
    by (simpl; lia).
  split; [exact H3 |]. split; [exact H1 |]. split.
  - rewrite (proj1 (open_elevation_result_count long_batch [c_a; c_b] [] 200
                      (map (fun e => {| oe_elevation := e |})
                         [JNum 100; JNum 150; JNum 120])
                      eq_refl eq_refl) H3).
    reflexivity.
  - destruct (proj2 (open_elevation_result_count short_batch [c_a; c_b] [] 200
                       (map (fun e => {| oe_elevation := e |}) [JNum 100])
                       eq_refl eq_refl) H1)
      as [data [Hrun [Hlen _]]].
    exists data. rewrite Hrun. split; [reflexivity | exact Hlen].
Defined.


End ClosedExamples.

(** ** The scenarios of the specification, run on the model *)

Section Scenarios.
Import JS Geo Service Examples.

Ltac decide_reals :=
  repeat match goal with
         | |- context [Rlt_dec ?a ?b] =>
             destruct (Rlt_dec a b); try (exfalso; lra)
         end.

(** Elevations 100, 150, 120: gain 50, loss 30, minimum 100, maximum 150. *)
Example hill_statistics :
  let elevations := [JNum 100; JNum 150; JNum 120] in
  calculateElevationGain (B := opaque_strings) elevations = Num 50 /\
  calculateElevationLoss (B := opaque_strings) elevations = Num 30 /\
  Math_min (B := opaque_strings) (JNum 100) [JNum 150; JNum 120] = Num 100 /\
  Math_max (B := opaque_strings) (JNum 100) [JNum 150; JNum 120] = Num 150.
Proof.
  cbv zeta. repeat split.
  - cbn. decide_reals. cbn [nadd]. f_equal. lra.
  - cbn. decide_reals. cbn [nadd]. f_equal. rewrite Rabs_left by lra. lra.
  - cbn. rewrite (Rmin_left 100 150), (Rmin_left 100 120) by lra.
    reflexivity.
  - cbn. rewrite (Rmax_right 100 150), (Rmax_left 150 120) by lra.
    reflexivity.
Qed.

(** 60 points: stride 1, all kept.  500 points: stride 10, 50 kept. *)
Example sampling_60_and_500 :
  sample_step 60 = 1%nat /\
  sampleCoords (seq 0 60) = seq 0 60 /\
  sample_step 500 = 10%nat /\
  List.length (sampleCoords (seq 0 500)) = 50%nat /\
  last (sampleCoords (seq 0 500)) 0%nat = 490%nat.
Proof. repeat split; vm_compute; reflexivity. Qed.

End Scenarios.

(** ** More on the distance *)

Section MoreHaversineFacts.
Import Geo.

(** The central angle, when [a] is the square of the sine of its half. *)
Lemma central_angle_of_sine (theta : R) :
  0 <= theta <= PI / 2 ->
  atan2 (sqrt (sin theta * sin theta)) (sqrt (1 - sin theta * sin theta))
  = theta.
Proof.
  intros [Hlo Hhi]. pose proof PI_RGT_0 as Hpi.
  assert (Hs : 0 <= sin theta) by (apply sin_ge_0; lra).
  assert (Hc : 0 <= cos theta) by (apply cos_ge_0; lra).
  rewrite (sqrt_square _ Hs).
  replace (1 - sin theta * sin theta) with (cos theta * cos theta)
    by (pose proof (sin2_cos2 theta) as H2; unfold Rsqr in H2; lra).
  rewrite (sqrt_square _ Hc).
  unfold atan2.
  destruct (Rlt_dec 0 (cos theta)) as [Hpos | Hnpos].
  - destruct Hhi as [Hlt | Heq].
    + change (sin theta / cos theta) with (tan theta).
      apply atan_tan. lra.
    + rewrite Heq, cos_PI2 in Hpos. lra.
  - assert (Hc0 : cos theta = 0) by lra.
    destruct (Rlt_dec (cos theta) 0); [lra |].
    assert (Hs1 : sin theta * sin theta = 1)
      by (pose proof (sin2_cos2 theta) as H2; unfold Rsqr in H2; nra).
    assert (Hspos : 0 < sin theta) by nra.
    destruct (Rlt_dec 0 (sin theta)); [| lra].
    destruct Hhi as [Hlt | Heq]; [| lra].
    pose proof (cos_gt_0 theta ltac:(lra) Hlt). lra.
Qed.

(** Along a meridian, and along the equator, the distance of the
    real-number model is the radius times the angle between the
    points. *)
Lemma great_circle_arcs (degrees : R) :
  0 <= degrees <= 180 ->
  (forall lng0 lat1,
      haversineDistance (mkCoord lng0 lat1) (mkCoord lng0 (lat1 + degrees))
      = 6371000 * (degrees * PI / 180)) /\
  (forall lng1,
      haversineDistance (mkCoord lng1 0) (mkCoord (lng1 + degrees) 0)
      = 6371000 * (degrees * PI / 180)).
Proof.
  intros [Hlo Hhi]. pose proof PI_RGT_0 as Hpi.
  set (theta := degrees * PI / 180 / 2).
  assert (Htheta : 0 <= theta <= PI / 2) by (unfold theta; split; nra).
  split.
  - intros lng0 lat1.
    assert (Ha : haversine_a (mkCoord lng0 lat1) (mkCoord lng0 (lat1 + degrees))
                 = sin theta * sin theta).
    { unfold haversine_a; cbn [lng lat].
      replace ((lat1 + degrees - lat1) * PI / 180 / 2) with theta
        by (unfold theta; lra).
      replace ((lng0 - lng0) * PI / 180 / 2) with 0 by lra.
      rewrite sin_0. ring. }
    unfold haversineDistance, EARTH_R; cbv zeta.
    rewrite Ha, (central_angle_of_sine theta Htheta). unfold theta. lra.
  - intros lng1.
    assert (Ha : haversine_a (mkCoord lng1 0) (mkCoord (lng1 + degrees) 0)
                 = sin theta * sin theta).
    { unfold haversine_a; cbn [lng lat].
      replace ((lng1 + degrees - lng1) * PI / 180 / 2) with theta
        by (unfold theta; lra).
      replace ((0 - 0) * PI / 180 / 2) with 0 by lra.
      replace (0 * PI / 180) with 0 by lra.
      rewrite sin_0, cos_0. ring. }
    unfold haversineDistance, EARTH_R; cbv zeta.
    rewrite Ha, (central_angle_of_sine theta Htheta). unfold theta. lra.
Qed.

End MoreHaversineFacts.

(** ** The length of a path *)

Section PathFacts.
Import Geo Path.

Lemma cumulative_loop_last (rest : list coord) :
  forall prev total,
    last (cumulative_loop prev rest total) total
    = total + length_from prev rest.
Proof.
  induction rest as [| c rest IH]; intros prev total.
  - simpl. lra.
  - cbn [cumulative_loop length_from]. cbv zeta.
    rewrite last_cons_default, IH. lra.
Qed.

Lemma last_rev_hd {A} (l : list A) (d : A) : last (rev l) d = hd d l.
Proof.
  destruct l as [| x rest]; simpl.
  - reflexivity.
  - apply last_last.
Qed.

Lemma cumulative_last_is_path_length (coordinates : list coord) :
  last (calculateCumulativeDistances coordinates) 0 = path_length coordinates.
Proof.
  unfold calculateCumulativeDistances. rewrite last_cons_default.
  destruct coordinates as [| c0 rest].
  - reflexivity.
  - rewrite cumulative_loop_last. simpl. lra.
Qed.

End PathFacts.

(** ** More on gain, loss and the extrema *)

Section MoreStatisticsFacts.
Import JS Service Climb.
Context {B : Builtins}.

Lemma gain_loop_ascent (rest : list R) :
  forall prev gain,
    gain_loop (JNum prev) (map JNum rest) (Num gain)
    = Num (gain + ascent_from prev rest).
Proof.
  induction rest as [| e rest IH]; intros prev gain.
  - simpl. f_equal. lra.
  - cbn [map gain_loop js_sub ToNumber gt0 nadd ascent_from].
    destruct (Rlt_dec 0 (e - prev)) as [Hup | Hnup]; rewrite IH; f_equal.
    + rewrite Rmax_right by lra. lra.
    + rewrite Rmax_left by lra. lra.
Qed.

Lemma loss_loop_descent (rest : list R) :
  forall prev loss,
    loss_loop (JNum prev) (map JNum rest) (Num loss)
    = Num (loss + descent_from prev rest).
Proof.
  induction rest as [| e rest IH]; intros prev loss.
  - simpl. f_equal. lra.
  - cbn [map loss_loop js_sub ToNumber lt0 nadd Math_abs descent_from].
    destruct (Rlt_dec (e - prev) 0) as [Hdn | Hndn]; rewrite IH; f_equal.
    + rewrite Rabs_left by exact Hdn. rewrite Rmax_right by lra. lra.
    + rewrite Rmax_left by lra. lra.
Qed.

Lemma gain_is_ascent (elevations : list R) :
  calculateElevationGain (map JNum elevations) = Num (ascent elevations).
Proof.
  destruct elevations as [| e0 rest]; [reflexivity |].
  cbn [map calculateElevationGain ascent].
  rewrite gain_loop_ascent. f_equal. lra.
Qed.

Lemma loss_is_descent (elevations : list R) :
  calculateElevationLoss (map JNum elevations) = Num (descent elevations).
Proof.
  destruct elevations as [| e0 rest]; [reflexivity |].
  cbn [map calculateElevationLoss descent].
  rewrite loss_loop_descent. f_equal. lra.
Qed.

Lemma ascent_from_snoc (rest : list R) :
  forall prev e,
    ascent_from prev (rest ++ [e])
    = ascent_from prev rest + Rmax 0 (e - last rest prev).
Proof.
  induction rest as [| x rest IH]; intros prev e.
  - simpl. lra.
  - cbn [app ascent_from]. rewrite IH, last_cons_default. lra.
Qed.

Lemma ascent_snoc (l : list R) (e : R) :
  ascent (l ++ [e]) = ascent l + Rmax 0 (e - last l e).
Proof.
  destruct l as [| x rest].
  - simpl. rewrite Rmax_left by lra. lra.
  - cbn [app ascent]. rewrite ascent_from_snoc, last_cons_default.
    reflexivity.
Qed.

Lemma descent_cons (e : R) (l : list R) :
  descent (e :: l) = Rmax 0 (e - hd e l) + descent l.
Proof.
  destruct l as [| x rest]; simpl.
  - rewrite Rmax_left by lra. lra.
  - reflexivity.
Qed.

Lemma ascent_rev (l : list R) : ascent (rev l) = descent l.
Proof.
  induction l as [| e l IH].
  - reflexivity.
  - cbn [rev]. rewrite ascent_snoc, IH, last_rev_hd, descent_cons. lra.
Qed.

(** X7.  Walked the other way, a profile in whole metres (at most a
    million elevations, none beyond a million metres) trades gain for
    loss. *)
Theorem gain_of_reversed_is_loss (elevations : list Z) :
  Ranges.small elevations ->
  calculateElevationGain (Ranges.whole (rev elevations))
  = calculateElevationLoss (Ranges.whole elevations) /\
  calculateElevationLoss (Ranges.whole (rev elevations))
  = calculateElevationGain (Ranges.whole elevations).
Proof.
  intros _. rewrite !whole_numbers, map_rev.
  split.
  - rewrite gain_is_ascent, loss_is_descent. f_equal. apply ascent_rev.
  - rewrite gain_is_ascent, loss_is_descent. f_equal.
    rewrite <- (rev_involutive (map IZR elevations)) at 2.
    symmetry. apply ascent_rev.
Qed.

Lemma descent_from_climb (rest : list R) :
  forall prev,
    (forall i a b,
        nth_error (prev :: rest) i = Some a ->
        nth_error (prev :: rest) (S i) = Some b -> a <= b) ->
    descent_from prev rest = 0.
Proof.
  induction rest as [| e rest IH]; intros prev Hup.
  - reflexivity.
  - cbn [descent_from].
    pose proof (Hup 0%nat prev e eq_refl eq_refl) as Hpe.
    rewrite Rmax_left by lra.
    rewrite IH; [lra |].
    intros i a b Ha Hb. apply (Hup (S i) a b); assumption.
Qed.

(** X8.  A profile in whole metres (at most a million elevations, none
    beyond a million metres) that never descends has no loss, and its
    gain is the difference between its last and its first elevation. *)
Theorem climb_without_descent (first : Z) (rest : list Z) :
  Ranges.small (first :: rest) ->
  (forall i a b,
      nth_error (first :: rest) i = Some a ->
      nth_error (first :: rest) (S i) = Some b -> (a <= b)%Z) ->
  calculateElevationLoss (Ranges.whole (first :: rest)) = Num 0 /\
  calculateElevationGain (Ranges.whole (first :: rest))
  = Num (IZR (last rest first - first)).
Proof.
  intros _ Hup.
  assert (Hloss : calculateElevationLoss (Ranges.whole (first :: rest)) = Num 0).
  { rewrite whole_numbers, loss_is_descent.
    change (map IZR (first :: rest)) with (IZR first :: map IZR rest).
    cbn [descent]. f_equal.
    apply descent_from_climb.
    intros i a b Ha Hb.
    change (IZR first :: map IZR rest) with (map IZR (first :: rest)) in Ha, Hb.
    rewrite nth_error_map in Ha, Hb.
    destruct (nth_error (first :: rest) i) as [za |] eqn:Ea; [| discriminate].
    destruct (nth_error (first :: rest) (S i)) as [zb |] eqn:Eb; [| discriminate].
    injection Ha as <-. injection Hb as <-.
    apply IZR_le. now apply (Hup i). }
  split; [exact Hloss |].
  pose proof (gain_minus_loss_whole first rest) as Htel.
  rewrite Hloss in Htel.
  destruct (calculateElevationGain (Ranges.whole (first :: rest))) as [| g];
    simpl in Htel; [discriminate |].
  injection Htel as Hg. f_equal. lra.
Qed.

Lemma fold_nmin_attained (rest : list jsval) :
  forall e0 acc,
    ToNumber e0 = Num acc ->
    Forall numeric rest ->
    exists e,
      In e (e0 :: rest) /\
      ToNumber e = fold_left (fun m e => nmin m (ToNumber e)) rest (Num acc).
Proof.
  induction rest as [| e1 rest IH]; intros e0 acc H0 Hall.
  - exists e0. split; [now left | exact H0].
  - inversion Hall as [| ? ? [x Hx] Hrest]; subst.
    cbn [fold_left]. rewrite Hx. cbn [nmin].
    destruct (Rle_dec acc x) as [Hle | Hgt].
    + rewrite Rmin_left by exact Hle.
      destruct (IH e0 acc H0 Hrest) as [e [[<- | Hin] He]].
      * exists e0. split; [now left | exact He].
      * exists e. split; [right; now right | exact He].
    + rewrite Rmin_right by lra.
      destruct (IH e1 x Hx Hrest) as [e [[<- | Hin] He]].
      * exists e1. split; [right; now left | exact He].
      * exists e. split; [right; now right | exact He].
Qed.

Lemma fold_nmax_attained (rest : list jsval) :
  forall e0 acc,
    ToNumber e0 = Num acc ->
    Forall numeric rest ->
    exists e,
      In e (e0 :: rest) /\
      ToNumber e = fold_left (fun m e => nmax m (ToNumber e)) rest (Num acc).
Proof.
  induction rest as [| e1 rest IH]; intros e0 acc H0 Hall.
  - exists e0. split; [now left | exact H0].
  - inversion Hall as [| ? ? [x Hx] Hrest]; subst.
    cbn [fold_left]. rewrite Hx. cbn [nmax].
    destruct (Rle_dec acc x) as [Hle | Hgt].
    + rewrite Rmax_right by exact Hle.
      destruct (IH e1 x Hx Hrest) as [e [[<- | Hin] He]].
      * exists e1. split; [right; now left | exact He].
      * exists e. split; [right; now right | exact He].
    + rewrite Rmax_left by lra.
      destruct (IH e0 acc H0 Hrest) as [e [[<- | Hin] He]].
      * exists e0. split; [now left | exact He].
      * exists e. split; [right; now right | exact He].
Qed.

Lemma fold_nmin_NaN (rest : list jsval) :
  fold_left (fun m e => nmin m (ToNumber e)) rest NaN = NaN.
Proof. induction rest as [| e rest IH]; [reflexivity | exact IH]. Qed.

Lemma fold_nmax_NaN (rest : list jsval) :
  fold_left (fun m e => nmax m (ToNumber e)) rest NaN = NaN.
Proof. induction rest as [| e rest IH]; [reflexivity | exact IH]. Qed.

Lemma fold_nmin_poisoned (rest : list jsval) :
  forall acc e,
    In e rest -> ToNumber e = NaN ->
    fold_left (fun m e => nmin m (ToNumber e)) rest acc = NaN.
Proof.
  induction rest as [| e1 rest IH]; intros acc e Hin He; [contradiction |].
  cbn [fold_left]. destruct Hin as [-> | Hin].
  - rewrite He. replace (nmin acc NaN) with NaN by (now destruct acc).
    apply fold_nmin_NaN.
  - now apply IH with e.
Qed.

Lemma fold_nmax_poisoned (rest : list jsval) :
  forall acc e,
    In e rest -> ToNumber e = NaN ->
    fold_left (fun m e => nmax m (ToNumber e)) rest acc = NaN.
Proof.
  induction rest as [| e1 rest IH]; intros acc e Hin He; [contradiction |].
  cbn [fold_left]. destruct Hin as [-> | Hin].
  - rewrite He. replace (nmax acc NaN) with NaN by (now destruct acc).
    apply fold_nmax_NaN.
  - now apply IH with e.
Qed.

Lemma Math_min_max_poisoned (e0 : jsval) (rest : list jsval) (e : jsval) :
  In e (e0 :: rest) -> ToNumber e = NaN ->
  Math_min e0 rest = NaN /\ Math_max e0 rest = NaN.
Proof.
  intros [<- | Hin] He; unfold Math_min, Math_max.
  - rewrite He. split; [apply fold_nmin_NaN | apply fold_nmax_NaN].
  - split; [now apply fold_nmin_poisoned with e
           | now apply fold_nmax_poisoned with e].
Qed.

Lemma Math_min_max_attained (e0 : jsval) (rest : list jsval) :
  Forall numeric (e0 :: rest) ->
  (exists e, In e (e0 :: rest) /\ ToNumber e = Math_min e0 rest) /\
  (exists e, In e (e0 :: rest) /\ ToNumber e = Math_max e0 rest).
Proof.
  intros Hall. inversion Hall as [| ? ? [x0 Hx0] Hrest]; subst.
  unfold Math_min, Math_max. rewrite Hx0. split.
  - now apply fold_nmin_attained.
  - now apply fold_nmax_attained.
Qed.

End MoreStatisticsFacts.

(** ** How many points the sampling keeps *)

Section MoreSamplingFacts.
Import Service.

Lemma filter_index_keep_all {A} (keep : nat -> bool) (arr : list A) :
  (forall i, keep i = true) ->
  forall index, filter_index keep index arr = arr.
Proof.
  intros Hall. induction arr as [| x arr IH]; intros index; simpl.
  - reflexivity.
  - now rewrite Hall, IH.
Qed.

(** X5.  A path of fewer than 100 coordinates is not sampled at all: every
    coordinate is kept. *)
Theorem sampleCoords_short_path_kept_whole {A} (coordinates : list A) :
  (List.length coordinates < 100)%nat ->
  sampleCoords coordinates = coordinates.
Proof.
  intros Hlen. unfold sampleCoords, sample_step, maxPoints.
  assert (Hq : (List.length coordinates / 50 <= 1)%nat).
  { apply Nat.lt_succ_r. apply Nat.Div0.div_lt_upper_bound. lia. }
  replace (Nat.max 1 (List.length coordinates / 50)) with 1%nat by lia.
  apply filter_index_keep_all. intros i. now rewrite Nat.mod_1_r.
Qed.

Lemma sampleCoords_length_range {A} (coordinates : list A) :
  (Nat.min 50 (List.length coordinates)
   <= List.length (sampleCoords coordinates)
   <= Nat.min 99 (List.length coordinates))%nat.
Proof.
  rewrite (sampleCoords_length coordinates).
  set (n := List.length coordinates).
  unfold sample_step, maxPoints.
  pose proof (Nat.div_mod_eq n 50) as Hn.
  pose proof (Nat.mod_upper_bound n 50 ltac:(lia)) as Hr.
  set (q := (n / 50)%nat) in *. set (r := (n mod 50)%nat) in *.
  destruct (Nat.eq_dec q 0) as [Hq0 | Hq0].
  - replace (Nat.max 1 q) with 1%nat by lia.
    replace (n + 1 - 1)%nat with n by lia. rewrite Nat.div_1_r. lia.
  - replace (Nat.max 1 q) with q by lia.
    assert (Hlow : (50 <= (n + q - 1) / q)%nat)
      by (apply Nat.div_le_lower_bound; [exact Hq0 | nia]).
    assert (Hn' : ((n + q - 1) / q <= n)%nat)
      by (apply Nat.Div0.div_le_upper_bound; nia).
    assert (H99 : ((n + q - 1) / q <= 99)%nat)
      by (apply Nat.lt_succ_r; apply Nat.Div0.div_lt_upper_bound; nia).
    lia.
Qed.

(** X6.  The sampling never keeps more than 99 coordinates, whatever the
    length of the path, and always keeps at least 50, or all of them
    when the path has fewer. *)
Theorem sampleCoords_length_bounds {A} (coordinates : list A) :
  (Nat.min 50 (List.length coordinates)
   <= List.length (sampleCoords coordinates)
   <= Nat.min 99 (List.length coordinates))%nat.
Proof. apply sampleCoords_length_range. Qed.

End MoreSamplingFacts.

(** ** The profile that is returned *)

Section MoreProviderFacts.
Import JS Geo Service Path.
Context {B : Builtins}.
Variable net : network.

Local Open Scope service_scope.

(** The statistics of a returned profile, as computed from its points. *)
Lemma getElevationProfile_statistics
      (coordinates : option (list coord)) (tr tr' : trace) (prof : profile) :
  getElevationProfile net coordinates tr = (Ok prof, tr') ->
  exists p0 ps,
    points prof = p0 :: ps /\
    statistics prof
    = {| totalDistanceMeters := distance (last ps p0);
         totalDistanceKm := distance (last ps p0) / 1000;
         minElevation := Math_min (elevation p0) (map elevation ps);
         maxElevation := Math_max (elevation p0) (map elevation ps);
         elevationGain := calculateElevationGain (map elevation (p0 :: ps));
         elevationLoss := calculateElevationLoss (map elevation (p0 :: ps));
         numberOfPoints := List.length (p0 :: ps) |}.
Proof.
  unfold getElevationProfile.
  destruct coordinates as [cs |]; [| discriminate].
  destruct (List.length cs <? 2)%nat; [discriminate |].
  unfold bind.
  destruct (try_catch _ _ tr) as [[[| p0 ps] | e] tr1]; try discriminate.
  unfold ret. intros H. injection H as <- _.
  exists p0, ps. split; reflexivity.
Qed.

(** A profile is returned only for two coordinates or more, and then it
    is the profile of the primary provider's points. *)
Lemma getElevationProfile_returned_from_primary
      (coordinates : option (list coord)) (tr tr' : trace) (prof : profile) :
  getElevationProfile net coordinates tr = (Ok prof, tr') ->
  exists cs,
    coordinates = Some cs /\ (2 <= List.length cs)%nat /\
    tr' = tr ++ map UsgsIdentify (sampleCoords cs) /\
    points prof
    = map_index
        (fun coord index =>
           {| sample_longitude := lng coord;
              sample_latitude := lat coord;
              elevation :=
                nth index (recorded_elevations net tr (sampleCoords cs))
                  JUndefined;
              distance :=
                nth index (calculateCumulativeDistances (sampleCoords cs)) 0;
              distanceKm :=
                nth index (calculateCumulativeDistances (sampleCoords cs)) 0
                / 1000 |})
        0 (sampleCoords cs).
Proof.
  intros Hrun.
  destruct coordinates as [cs |]; [| discriminate].
  destruct (Nat.ltb_spec (List.length cs) 2) as [Hlt | Hge].
  - unfold getElevationProfile in Hrun.
    destruct (Nat.ltb_spec (List.length cs) 2); [discriminate | lia].
  - destruct (getElevationProfile_primary net cs tr Hge)
      as [prof' [Hrun' Hpoints]].
    rewrite Hrun' in Hrun. injection Hrun as <- <-.
    exists cs. repeat split; assumption.
Qed.

(** X9.  [getElevationProfile] never asks the batch provider: whatever the
    network answers, the requests it adds are point queries to the
    primary provider, at most 99 of them, and it never ends in the
    "all sources failed" error.  Given two coordinates or more it
    always returns a profile. *)
Theorem getElevationProfile_never_reaches_fallback :
  (forall coordinates tr,
      exists queried,
        snd (getElevationProfile net coordinates tr)
        = tr ++ map UsgsIdentify queried /\
        (List.length queried <= 99)%nat) /\
  (forall coordinates tr,
      fst (getElevationProfile net coordinates tr) <> Throw AllSourcesFailed) /\
  (forall cs tr,
      (2 <= List.length cs)%nat ->
      exists prof,
        getElevationProfile net (Some cs) tr
        = (Ok prof, tr ++ map UsgsIdentify (sampleCoords cs))).
Proof.
  assert (Hshort : forall coordinates tr,
             (coordinates = None \/
              exists cs, coordinates = Some cs /\ (List.length cs < 2)%nat) ->
             getElevationProfile net coordinates tr
             = (Throw InvalidCoordinates, tr)).
  { intros coordinates tr [-> | [cs [-> Hlt]]]; [reflexivity |].
    unfold getElevationProfile.
    destruct (Nat.ltb_spec (List.length cs) 2); [reflexivity | lia]. }
  assert (Hcases : forall coordinates : option (list coord),
             (coordinates = None \/
              exists cs, coordinates = Some cs /\ (List.length cs < 2)%nat) \/
             exists cs, coordinates = Some cs /\ (2 <= List.length cs)%nat).
  { intros [cs |]; [| left; now left].
    destruct (Nat.lt_ge_cases (List.length cs) 2).
    - left. right. now exists cs.
    - right. now exists cs. }
  split; [| split].
  - intros coordinates tr.
    destruct (Hcases coordinates) as [Hs | [cs [-> Hge]]].
    + rewrite (Hshort _ tr Hs). exists []. simpl.
      rewrite app_nil_r. split; [reflexivity | lia].
    + destruct (getElevationProfile_primary net cs tr Hge) as [prof [-> _]].
      exists (sampleCoords cs). split; [reflexivity |].
      pose proof (sampleCoords_length_range cs). lia.
  - intros coordinates tr.
    destruct (Hcases coordinates) as [Hs | [cs [-> Hge]]].
    + rewrite (Hshort _ tr Hs). discriminate.
    + destruct (getElevationProfile_primary net cs tr Hge) as [prof [-> _]].
      discriminate.
  - intros cs tr Hge.
    destruct (getElevationProfile_primary net cs tr Hge) as [prof [Hrun _]].
    now exists prof.
Qed.

(** X10.  The points of a returned profile are the sampled coordinates, in
    order, each with its cumulative distance in metres and in
    kilometres; there are between 2 and 99 of them, and
    [numberOfPoints] counts them. *)
Theorem profile_points_follow_sampled_coordinates
        (cs : list coord) (tr tr' : trace) (prof : profile) :
  getElevationProfile net (Some cs) tr = (Ok prof, tr') ->
  let sampledCoords := sampleCoords cs in
  let distances := calculateCumulativeDistances sampledCoords in
  numberOfPoints (statistics prof) = List.length (points prof) /\
  List.length (points prof) = List.length sampledCoords /\
  (2 <= List.length (points prof) <= 99)%nat /\
  forall i c,
    nth_error sampledCoords i = Some c ->
    exists p,
      nth_error (points prof) i = Some p /\
      sample_longitude p = lng c /\ sample_latitude p = lat c /\
      nth_error distances i = Some (distance p) /\
      distanceKm p = distance p / 1000.
Proof.
  intros Hrun sampledCoords distances.
  destruct (getElevationProfile_statistics _ _ _ _ Hrun)
    as [p0 [ps [Hpts Hstats]]].
  destruct (getElevationProfile_returned_from_primary _ _ _ _ Hrun)
    as [cs' [Hcs [Hge [_ Hpoints]]]].
  injection Hcs as <-. fold sampledCoords distances in Hpoints.
  assert (Hlen : List.length (points prof) = List.length sampledCoords)
    by (rewrite Hpoints; apply map_index_length).
  split; [| split; [exact Hlen | split]].
  - rewrite Hstats, Hpts. reflexivity.
  - rewrite Hlen. unfold sampledCoords.
    pose proof (sampleCoords_length_range cs). lia.
  - intros i c Hc.
    assert (Hi : (i < List.length distances)%nat).
    { unfold distances. rewrite distances_length.
      assert (i < List.length sampledCoords)%nat
        by (apply nth_error_Some; congruence).
      lia. }
    eexists. split; [| split; [| split; [| split]]].
    + rewrite Hpoints. apply (map_index_nth_error _ _ 0 i c Hc).
    + reflexivity.
    + reflexivity.
    + cbn [distance Nat.add]. now apply nth_error_nth'.
    + reflexivity.
Qed.

Lemma nth_error_last {A} (l : list A) (d : A) :
  l <> [] -> nth_error l (List.length l - 1) = Some (last l d).
Proof.
  induction l as [| x l IH]; intros Hne; [contradiction |].
  destruct l as [| y l'].
  - reflexivity.
  - change (last (x :: y :: l') d) with (last (y :: l') d).
    rewrite <- IH by discriminate.
    cbn [List.length]. replace (S (S (List.length l')) - 1)%nat
      with (S (S (List.length l') - 1)) by lia.
    reflexivity.
Qed.

(** The distance of the last point is the length of the sampled path. *)
Lemma last_point_distance (cs : list coord) (tr tr' : trace) (prof : profile) :
  getElevationProfile net (Some cs) tr = (Ok prof, tr') ->
  totalDistanceMeters (statistics prof) = path_length (sampleCoords cs) /\
  forall p,
    In p (points prof) ->
    exists i,
      nth_error (calculateCumulativeDistances (sampleCoords cs)) i
      = Some (distance p).
Proof.
  intros Hrun.
  destruct (getElevationProfile_statistics _ _ _ _ Hrun)
    as [p0 [ps [Hpts Hstats]]].
  destruct (getElevationProfile_returned_from_primary _ _ _ _ Hrun)
    as [cs' [Hcs [Hge [_ Hpoints]]]].
  injection Hcs as <-.
  set (sampledCoords := sampleCoords cs) in *.
  set (distances := calculateCumulativeDistances sampledCoords) in *.
  assert (Hlen : List.length (points prof) = List.length sampledCoords)
    by (rewrite Hpoints; apply map_index_length).
  assert (Hdlen : List.length distances = List.length sampledCoords).
  { unfold distances. rewrite distances_length.
    rewrite <- Hlen, Hpts. simpl. lia. }
  assert (Hat : forall k p,
             nth_error (points prof) k = Some p ->
             nth_error distances k = Some (distance p)).
  { intros k p Hk. rewrite Hpoints in Hk.
    apply map_index_nth_error_inv in Hk. destruct Hk as [c [Hc ->]].
    cbn [distance Nat.add]. apply nth_error_nth'.
    rewrite Hdlen. apply nth_error_Some. congruence. }
  split.
  - rewrite Hstats. cbn [totalDistanceMeters].
    rewrite <- cumulative_last_is_path_length. fold sampledCoords distances.
    pose proof (nth_error_last (p0 :: ps) p0 ltac:(discriminate)) as Hlast.
    rewrite last_cons_default, <- Hpts in Hlast.
    apply Hat in Hlast.
    assert (Hdne : distances <> []).
    { intros E. rewrite E in Hdlen. rewrite <- Hlen, Hpts in Hdlen.
      discriminate. }
    pose proof (nth_error_last distances 0 Hdne) as Hdlast.
    rewrite Hdlen, <- Hlen in Hdlast. congruence.
  - intros p Hin. apply In_nth_error in Hin. destruct Hin as [k Hk].
    exists k. now apply Hat.
Qed.

Lemma returned_profile_distances
      (cs : list coord) (tr tr' : trace) (prof : profile) :
  getElevationProfile net (Some cs) tr = (Ok prof, tr') ->
  totalDistanceMeters (statistics prof) = path_length (sampleCoords cs) /\
  totalDistanceKm (statistics prof)
  = totalDistanceMeters (statistics prof) / 1000 /\
  (exists p0, hd_error (points prof) = Some p0 /\ distance p0 = 0) /\
  forall p,
    In p (points prof) ->
    0 <= distance p <= totalDistanceMeters (statistics prof).
Proof.
  intros Hrun.
  destruct (last_point_distance cs tr tr' prof Hrun) as [Htotal Hdist].
  destruct (getElevationProfile_statistics _ _ _ _ Hrun)
    as [p0 [ps [Hpts Hstats]]].
  destruct (getElevationProfile_returned_from_primary _ _ _ _ Hrun)
    as [cs' [Hcs [Hge [_ Hpoints]]]].
  injection Hcs as <-.
  remember (sampleCoords cs) as sampledCoords eqn:Es.
  destruct sampledCoords as [| s0 ss].
  { simpl in Hpoints. congruence. }
  split; [exact Htotal |]. split; [| split].
  - rewrite Hstats. reflexivity.
  - exists p0. rewrite Hpts. split; [reflexivity |].
    rewrite Hpts in Hpoints. cbn [map_index] in Hpoints.
    injection Hpoints as -> _. reflexivity.
  - intros p Hin. destruct (Hdist p Hin) as [i Hi].
    rewrite Htotal, <- cumulative_last_is_path_length.
    assert (Hdne : calculateCumulativeDistances (s0 :: ss) <> [])
      by discriminate.
    pose proof (nth_error_last _ 0 Hdne) as Hlast.
    unfold calculateCumulativeDistances in Hi, Hlast |- *.
    split.
    + apply (cumulative_loop_sorted ss s0 0 0 i 0 (distance p));
        [lia | reflexivity | exact Hi].
    + eapply (cumulative_loop_sorted ss s0 0 i _ (distance p));
        [| exact Hi | exact Hlast].
      assert (i < List.length (0%R :: cumulative_loop s0 ss 0%R))%nat
        by (apply nth_error_Some; congruence).
      lia.
Qed.

(** X11.  [totalDistanceMeters] is the distance of the last point of the
    profile, which is the last of the cumulative distances of the
    sampled coordinates (not of the full input); [totalDistanceKm] is
    that divided by 1000, and the first point is at distance 0. *)
Theorem profile_total_distance_is_last_cumulative_distance
        (cs : list coord) (tr tr' : trace) (prof : profile) :
  getElevationProfile net (Some cs) tr = (Ok prof, tr') ->
  let distances := calculateCumulativeDistances (sampleCoords cs) in
  (exists p_last,
      nth_error (points prof) (List.length (points prof) - 1) = Some p_last /\
      totalDistanceMeters (statistics prof) = distance p_last) /\
  nth_error distances (List.length (sampleCoords cs) - 1)
  = Some (totalDistanceMeters (statistics prof)) /\
  totalDistanceKm (statistics prof)
  = totalDistanceMeters (statistics prof) / 1000 /\
  (exists p0, hd_error (points prof) = Some p0 /\ distance p0 = 0).
Proof.
  intros Hrun distances.
  destruct (getElevationProfile_statistics _ _ _ _ Hrun)
    as [p0 [ps [Hpts Hstats]]].
  destruct (getElevationProfile_returned_from_primary _ _ _ _ Hrun)
    as [cs' [Hcs [Hge [_ Hpoints]]]].
  injection Hcs as <-. fold distances in Hpoints.
  assert (Hlen : List.length (points prof) = List.length (sampleCoords cs))
    by (rewrite Hpoints; apply map_index_length).
  pose proof (nth_error_last (p0 :: ps) p0 ltac:(discriminate)) as Hlast.
  rewrite last_cons_default, <- Hpts in Hlast.
  assert (Htotal : totalDistanceMeters (statistics prof) = distance (last ps p0))
    by (rewrite Hstats; reflexivity).
  split; [| split; [| split]].
  - exists (last ps p0). split; [exact Hlast | exact Htotal].
  - rewrite Htotal, <- Hlen.
    assert (Hn : (List.length (points prof) - 1
                  < List.length (sampleCoords cs))%nat)
      by (rewrite <- Hlen, Hpts; simpl; lia).
    remember (List.length (points prof) - 1)%nat as n eqn:En. clear En.
    rewrite Hpoints in Hlast.
    apply map_index_nth_error_inv in Hlast. destruct Hlast as [c [Hc ->]].
    cbn [distance Nat.add]. apply nth_error_nth'.
    unfold distances. rewrite distances_length. lia.
  - rewrite Hstats. reflexivity.
  - remember (sampleCoords cs) as sampledCoords eqn:Es.
    destruct sampledCoords as [| s0 ss].
    { simpl in Hpoints. congruence. }
    exists p0. rewrite Hpts. split; [reflexivity |].
    rewrite Hpts in Hpoints. cbn [map_index] in Hpoints.
    injection Hpoints as -> _. reflexivity.
Qed.




(** X13.  In a returned profile whose elevations are numbers, the minimum and
    the maximum are the elevations of two of its points. *)
Theorem profile_extrema_attained
        (coordinates : option (list coord)) (tr tr' : trace) (prof : profile) :
  getElevationProfile net coordinates tr = (Ok prof, tr') ->
  Forall (fun p => numeric (elevation p)) (points prof) ->
  (exists p, In p (points prof) /\
             ToNumber (elevation p) = minElevation (statistics prof)) /\
  (exists q, In q (points prof) /\
             ToNumber (elevation q) = maxElevation (statistics prof)).
Proof.
  intros Hrun Hnum.
  destruct (getElevationProfile_statistics _ _ _ _ Hrun)
    as [p0 [ps [Hpts Hstats]]].
  rewrite Hstats, Hpts in *. cbn [minElevation maxElevation].
  assert (Hall : Forall numeric (elevation p0 :: map elevation ps)).
  { change (Forall numeric (map elevation (p0 :: ps))).
    now apply Forall_map. }
  destruct (Math_min_max_attained _ _ Hall) as [[e [He Hmin]] [e' [He' Hmax]]].
  change (elevation p0 :: map elevation ps)
    with (map elevation (p0 :: ps)) in He, He'.
  apply in_map_iff in He. destruct He as [p [<- Hp]].
  apply in_map_iff in He'. destruct He' as [q [<- Hq]].
  split; [exists p | exists q]; split; assumption.
Qed.

(** X14.  One elevation that is not a number is enough to make both
    [minElevation] and [maxElevation] of a returned profile [NaN];
    gain and loss stay non-negative numbers. *)
Theorem profile_extrema_poisoned_by_non_number
        (coordinates : option (list coord)) (tr tr' : trace) (prof : profile)
        (p : sample) :
  getElevationProfile net coordinates tr = (Ok prof, tr') ->
  In p (points prof) ->
  ToNumber (elevation p) = NaN ->
  minElevation (statistics prof) = NaN /\
  maxElevation (statistics prof) = NaN /\
  (exists g, elevationGain (statistics prof) = Num g /\ 0 <= g) /\
  (exists l, elevationLoss (statistics prof) = Num l /\ 0 <= l).
Proof.
  intros Hrun Hin Hnan.
  destruct (getElevationProfile_statistics _ _ _ _ Hrun)
    as [p0 [ps [Hpts Hstats]]].
  rewrite Hstats. cbn [minElevation maxElevation elevationGain elevationLoss].
  rewrite Hpts in Hin.
  assert (Hine : In (elevation p) (elevation p0 :: map elevation ps)).
  { change (In (elevation p) (map elevation (p0 :: ps))). now apply in_map. }
  destruct (Math_min_max_poisoned _ _ _ Hine Hnan) as [Hmin Hmax].
  split; [exact Hmin |]. split; [exact Hmax |].
  cbn [map calculateElevationGain calculateElevationLoss].
  split; [apply gain_loop_nonneg | apply loss_loop_nonneg]; lra.
Qed.

End MoreProviderFacts.

(** ** The request of the batch provider *)

Section MoreFallbackFacts.
Import JS Geo Service.
Context {B : Builtins}.
Variable net : network.

Local Open Scope service_scope.

Lemma results_map_trace (sampledCoords : list coord) (distances : list R)
      (rs : list oe_result) :
  forall index tr,
    snd (map_index_M (result_to_sample sampledCoords distances) index rs tr)
    = tr.
Proof.
  induction rs as [| r rs IH]; intros index tr.
  - reflexivity.
  - cbn [map_index_M]. unfold bind at 1. unfold result_to_sample at 1.
    destruct (nth_error sampledCoords index) as [c |]; [| reflexivity].
    unfold ret at 1. unfold bind at 1.
    specialize (IH (S index) tr).
    destruct (map_index_M _ (S index) rs tr) as [[ys | e] tr1];
      simpl in IH; subst tr1; reflexivity.
Qed.

(** X15.  The batch provider makes exactly one request, whatever comes back:
    the sampled coordinates, in order, each as its latitude and its
    longitude.  A status outside 200-299 fails the attempt with that
    status, whatever the body; a rejected fetch and a body without
    [results] fail it too. *)
Theorem open_elevation_one_request (coordinates : list coord) (tr : trace) :
  let locations :=
    map (fun coord => {| latitude := lat coord; longitude := lng coord |})
      (sampleCoords coordinates) in
  snd (getElevationFromOpenElevation net coordinates tr)
  = tr ++ [OpenElevationLookup locations] /\
  (forall status body,
      open_elevation_lookup net tr locations = HttpResponse status body ->
      ok status = false ->
      fst (getElevationFromOpenElevation net coordinates tr)
      = Throw (HttpError status)) /\
  (open_elevation_lookup net tr locations = NetworkError ->
   fst (getElevationFromOpenElevation net coordinates tr)
   = Throw FetchRejected) /\
  (forall status,
      open_elevation_lookup net tr locations
      = HttpResponse status (Some {| results := None |}) ->
      ok status = true ->
      fst (getElevationFromOpenElevation net coordinates tr)
      = Throw TypeError).
Proof.
  intros locations.
  unfold getElevationFromOpenElevation, try_catch, bind, fetch_open_elevation.
  fold locations.
  split; [| split; [| split]].
  - destruct (open_elevation_lookup net tr locations) as [| status body];
      [reflexivity |].
    destruct (ok status); cbn [negb]; [| reflexivity].
    destruct body as [[[rs |]] |]; try reflexivity.
    unfold json, ret at 1. cbn [results]. cbv beta iota.
    pose proof (results_map_trace (sampleCoords coordinates)
                  (calculateCumulativeDistances (sampleCoords coordinates))
                  rs 0 (tr ++ [OpenElevationLookup locations])) as Htr.
    destruct (map_index_M _ 0 rs _) as [[ys | e] tr1];
      simpl in Htr; subst tr1; reflexivity.
  - intros status body -> ->. reflexivity.
  - intros ->. reflexivity.
  - intros status -> ->. reflexivity.
Qed.

End MoreFallbackFacts.

(** ** The scales of the chart *)

Section ChartFacts.
Import JS Geo Service Chart.

Lemma chart_size : chartWidth = 730 /\ chartHeight = 100.
Proof.
  unfold chartWidth, chartHeight, width, height, margin_left, margin_right,
    margin_top, margin_bottom.
  split; lra.
Qed.

(** X16.  The vertical scale puts every elevation between the minimum and the
    maximum inside the chart, the maximum at the top (0) and the
    minimum at the bottom (100), higher elevations higher up; a flat
    profile is drawn on the middle line. *)
Theorem yScale_within_chart (minElevation maxElevation : R) :
  (forall elevation,
      minElevation <= elevation <= maxElevation ->
      0 <= yScale minElevation maxElevation elevation <= 100) /\
  (minElevation < maxElevation ->
   yScale minElevation maxElevation minElevation = 100 /\
   yScale minElevation maxElevation maxElevation = 0 /\
   forall e1 e2,
     e1 <= e2 ->
     yScale minElevation maxElevation e2
     <= yScale minElevation maxElevation e1) /\
  (forall elevation, yScale minElevation minElevation elevation = 50).
Proof.
  destruct chart_size as [_ Hh].
  split; [| split].
  - intros elevation [Hlo Hhi]. unfold yScale; cbv zeta. rewrite Hh.
    destruct (Req_dec_T (maxElevation - minElevation) 0) as [E | NE]; [lra |].
    assert (Hr : 0 < maxElevation - minElevation) by lra.
    assert (H01 : 0 <= (elevation - minElevation) / (maxElevation - minElevation)
                  <= 1).
    { split.
      - apply Rmult_le_pos; [lra |]. left. now apply Rinv_0_lt_compat.
      - apply (Rmult_le_reg_r (maxElevation - minElevation)); [exact Hr |].
        unfold Rdiv. rewrite Rmult_assoc, Rinv_l by lra. lra. }
    lra.
  - intros Hlt. unfold yScale; cbv zeta. rewrite Hh.
    destruct (Req_dec_T (maxElevation - minElevation) 0) as [E | NE]; [lra |].
    split; [| split].
    + unfold Rdiv. replace (minElevation - minElevation) with 0 by lra. lra.
    + unfold Rdiv. rewrite Rinv_r by exact NE. lra.
    + intros e1 e2 Hle.
      assert (Hinv : 0 < / (maxElevation - minElevation))
        by (apply Rinv_0_lt_compat; lra).
      unfold Rdiv.
      assert ((e1 - minElevation) * / (maxElevation - minElevation)
              <= (e2 - minElevation) * / (maxElevation - minElevation))
        by (apply Rmult_le_compat_r; lra).
      lra.
  - intros elevation. unfold yScale; cbv zeta. rewrite Hh.
    destruct (Req_dec_T (minElevation - minElevation) 0) as [E | NE]; lra.
Qed.

Lemma fold_Rmax_is (l : list R) :
  forall acc m,
    acc <= m -> (forall x, In x l -> x <= m) -> In m (acc :: l) ->
    fold_left Rmax l acc = m.
Proof.
  induction l as [| x l IH]; intros acc m Hacc Hall Hin.
  - destruct Hin as [-> | []]. reflexivity.
  - cbn [fold_left]. apply IH.
    + apply Rmax_lub; [exact Hacc | apply Hall; now left].
    + intros y Hy. apply Hall. now right.
    + destruct Hin as [-> | [-> | Hin]].
      * destruct (Rle_dec m x) as [Hle | Hgt].
        -- assert (x <= m) by (apply Hall; now left).
           assert (x = m) by lra. subst x.
           left. apply Rmax_left. lra.
        -- left. apply Rmax_left. lra.
      * left. apply Rmax_right. exact Hacc.
      * right. exact Hin.
Qed.

End ChartFacts.

(** ** The chart of a returned profile *)

Section ChartOfProfile.
Import JS Geo Service Chart.
Context {B : Builtins}.
Variable net : network.

(** X17.  The horizontal scale of the chart spans the profile: the largest
    distance among the points is [totalDistanceMeters], and when that
    is not 0 the first point is drawn at x = 0, the last at x = 730,
    the right edge, and every point in between. *)
Theorem chart_horizontal_scale_spans_profile
        (cs : list coord) (tr tr' : trace) (prof : profile)
        (p0 : sample) (ps : list sample) :
  getElevationProfile net (Some cs) tr = (Ok prof, tr') ->
  points prof = p0 :: ps ->
  maxDistance p0 ps = totalDistanceMeters (statistics prof) /\
  (0 < totalDistanceMeters (statistics prof) ->
   xScale (maxDistance p0 ps) (distance p0) = 0 /\
   xScale (maxDistance p0 ps) (distance (last ps p0)) = 730 /\
   forall p,
     In p (points prof) ->
     0 <= xScale (maxDistance p0 ps) (distance p) <= 730).
Proof.
  intros Hrun Hpts.
  destruct (returned_profile_distances net cs tr tr' prof Hrun)
    as [_ [_ [[q0 [Hq0 Hzero]] Hbound]]].
  destruct (getElevationProfile_statistics net _ _ _ _ Hrun)
    as [p0' [ps' [Hpts' Hstats]]].
  assert (Hsame : p0' = p0 /\ ps' = ps) by (split; congruence).
  destruct Hsame as [-> ->].
  rewrite Hpts in Hq0. simpl in Hq0. injection Hq0 as <-.
  assert (Htot : totalDistanceMeters (statistics prof)
                 = distance (last ps p0)) by (rewrite Hstats; reflexivity).
  assert (Hmax : maxDistance p0 ps = totalDistanceMeters (statistics prof)).
  { unfold maxDistance. apply fold_Rmax_is.
    - apply Hbound. rewrite Hpts. now left.
    - intros x Hx. apply in_map_iff in Hx. destruct Hx as [p [<- Hp]].
      apply Hbound. rewrite Hpts. now right.
    - rewrite Htot. change (distance p0 :: map distance ps)
        with (map distance (p0 :: ps)).
      apply in_map. rewrite <- last_cons_default with (d := p0).
      destruct ps as [| p1 ps1]; [now left |].
      assert (Hne : p0 :: p1 :: ps1 <> []) by discriminate.
      destruct (exists_last Hne) as [l' [a Hl]].
      rewrite Hl, last_last. apply in_or_app. right. now left. }
  split; [exact Hmax |].
  intros Hpos. destruct chart_size as [Hw _].
  rewrite Hmax. unfold xScale. rewrite Hw.
  set (total := totalDistanceMeters (statistics prof)) in *.
  assert (Hinv : 0 < / total) by now apply Rinv_0_lt_compat.
  split; [| split].
  - rewrite Hzero. unfold Rdiv. lra.
  - rewrite <- Htot. unfold Rdiv. rewrite Rinv_r by lra. lra.
  - intros p Hin. destruct (Hbound p Hin) as [Hlo Hhi].
    assert (H01 : 0 <= distance p / total <= 1).
    { split.
      - apply Rmult_le_pos; lra.
      - apply (Rmult_le_reg_r total); [exact Hpos |].
        unfold Rdiv. rewrite Rmult_assoc, Rinv_l by lra. lra. }
    lra.
Qed.

End ChartOfProfile.

(** ** Clicking on the map *)

Section UiFacts.
Import JS Geo Service Ui.
Context {B : Builtins}.
Variable net : network.

Lemma highlight_replaces (map : map_t) (f : feature) :
  highlightSelectedStream map (Some f)
  = {| queryRenderedFeatures := queryRenderedFeatures map;
       highlighted_source := Some f;
       highlighted_layer := true |}.
Proof.
  unfold highlightSelectedStream, getSource.
  destruct (highlighted_source map); reflexivity.
Qed.

Lemma short_input_throws (cs : list coord) (tr : trace) :
  (List.length cs < 2)%nat ->
  getElevationProfile net (Some cs) tr = (Throw InvalidCoordinates, tr).
Proof.
  intros Hlt. unfold getElevationProfile.
  destruct (Nat.ltb_spec (List.length cs) 2); [reflexivity | lia].
Qed.

(** X18.  A click that gives no profile makes no request and leaves the
    profile, the selection and the highlight of before in place; it
    ends with [loading] off and says why.  Nothing rendered under the
    click (or a failing query, or a multi-part line without parts):
    "No trout stream found".  A line of fewer than two coordinates:
    "Failed to get elevation data". *)
Theorem click_without_profile (pt : point) (st : ui) (map : map_t) (tr : trace) :
  (queryRenderedFeatures map pt layers = None \/
   queryRenderedFeatures map pt layers = Some [] \/
   (exists f others,
       queryRenderedFeatures map pt layers = Some (f :: others) /\
       feature_geometry f = MultiLineString []) ->
   handleMapClick net pt st map tr
   = ({| elevationProfile := elevationProfile st;
         selectedStreamFeature := selectedStreamFeature st;
         loading := false;
         errorMessage := Some no_stream_found;
         showInstructions := showInstructions st |}, map, tr)) /\
  (forall f others cs,
      queryRenderedFeatures map pt layers = Some (f :: others) ->
      (feature_geometry f = LineString cs \/
       exists parts, feature_geometry f = MultiLineString (cs :: parts)) ->
      (List.length cs < 2)%nat ->
      handleMapClick net pt st map tr
      = ({| elevationProfile := elevationProfile st;
            selectedStreamFeature := selectedStreamFeature st;
            loading := false;
            errorMessage := Some failed_to_get_data;
            showInstructions := showInstructions st |}, map, tr)).
Proof.
  split.
  - intros [Hq | [Hq | [f [others [Hq Hg]]]]];
      unfold handleMapClick, querySelectedLine; rewrite Hq;
      try rewrite Hg; reflexivity.
  - intros f others cs Hq Hg Hlt.
    unfold handleMapClick, querySelectedLine. rewrite Hq.
    destruct Hg as [Hg | [parts Hg]]; rewrite Hg; cbn [nth_error];
      rewrite (short_input_throws cs tr Hlt); reflexivity.
Qed.

(** X19.  A click on a line of two coordinates or more always shows a
    profile: the one [getElevationProfile] returns for the line (for
    its first part, when it has several), after the point queries of
    its sampled coordinates.  The feature becomes the selection and the
    highlight, replacing any earlier one; the error is cleared, the
    instructions are hidden and [loading] is off. *)
Theorem click_on_stream_shows_profile
        (pt : point) (st : ui) (map : map_t) (tr : trace)
        (f : feature) (others : list feature) (cs : list coord) :
  queryRenderedFeatures map pt layers = Some (f :: others) ->
  (feature_geometry f = LineString cs \/
   exists parts, feature_geometry f = MultiLineString (cs :: parts)) ->
  (2 <= List.length cs)%nat ->
  exists prof,
    getElevationProfile net (Some cs) tr
    = (Ok prof, tr ++ List.map UsgsIdentify (sampleCoords cs)) /\
    handleMapClick net pt st map tr
    = ({| elevationProfile := Some prof;
          selectedStreamFeature := Some f;
          loading := false;
          errorMessage := None;
          showInstructions := false |},
       {| queryRenderedFeatures := queryRenderedFeatures map;
          highlighted_source := Some f;
          highlighted_layer := true |},
       tr ++ List.map UsgsIdentify (sampleCoords cs)).
Proof.
  intros Hq Hg Hge.
  destruct (getElevationProfile_primary net cs tr Hge) as [prof [Hrun _]].
  exists prof. split; [exact Hrun |].
  unfold handleMapClick, querySelectedLine. rewrite Hq.
  destruct Hg as [Hg | [parts Hg]]; rewrite Hg; cbn [nth_error];
    rewrite Hrun, highlight_replaces; reflexivity.
Qed.

(** X20.  Clearing the selection after such a click empties the panel and
    takes the highlight off the map; the instructions stay hidden. *)
Theorem clear_after_click
        (pt : point) (st : ui) (map : map_t) (tr : trace)
        (f : feature) (others : list feature) (cs : list coord) :
  queryRenderedFeatures map pt layers = Some (f :: others) ->
  (feature_geometry f = LineString cs \/
   exists parts, feature_geometry f = MultiLineString (cs :: parts)) ->
  (2 <= List.length cs)%nat ->
  let '(st', map', _) := handleMapClick net pt st map tr in
  clearSelection (Some map') st'
  = ({| elevationProfile := None;
        selectedStreamFeature := None;
        loading := false;
        errorMessage := None;
        showInstructions := false |},
     Some {| queryRenderedFeatures := queryRenderedFeatures map;
             highlighted_source := None;
             highlighted_layer := false |}) /\
  clearSelection None st'
  = ({| elevationProfile := None;
        selectedStreamFeature := None;
        loading := false;
        errorMessage := None;
        showInstructions := false |}, None).
Proof.
  intros Hq Hg Hge.
  destruct (getElevationProfile_primary net cs tr Hge) as [prof [Hrun _]].
  unfold handleMapClick, querySelectedLine. rewrite Hq.
  destruct Hg as [Hg | [parts Hg]]; rewrite Hg; cbn [nth_error];
    rewrite Hrun, highlight_replaces; split; reflexivity.
Qed.

End UiFacts.

(** ** The further theorems at concrete inputs *)

Section MoreClosedExamples.
Import JS Geo Service Path Chart Ui Examples MoreExamples.

Lemma gain_of_reversed_is_loss_witness :
  Ranges.small [100; 150; 120]%Z /\
  calculateElevationGain (B := opaque_strings)
    (Ranges.whole (rev [100; 150; 120]%Z))
  = calculateElevationLoss (B := opaque_strings)
      (Ranges.whole [100; 150; 120]%Z).
Proof.
  assert (Hs : Ranges.small [100; 150; 120]%Z)
    by (split; [simpl; lia | repeat constructor; simpl; lia]).
  split; [exact Hs |].
  exact (proj1 (gain_of_reversed_is_loss (B := opaque_strings)
                  [100; 150; 120]%Z Hs)).
Defined.

Lemma climb_without_descent_witness :
  Ranges.small [100; 120; 120; 150]%Z /\
  (forall i a b,
      nth_error [100; 120; 120; 150]%Z i = Some a ->
      nth_error [100; 120; 120; 150]%Z (S i) = Some b -> (a <= b)%Z) /\
  calculateElevationGain (B := opaque_strings)
    (Ranges.whole [100; 120; 120; 150]%Z) = Num (IZR (150 - 100)).
Proof.
  assert (Hs : Ranges.small [100; 120; 120; 150]%Z)
    by (split; [simpl; lia | repeat constructor; simpl; lia]).
  assert (Hup : forall i a b,
             nth_error [100; 120; 120; 150]%Z i = Some a ->
             nth_error [100; 120; 120; 150]%Z (S i) = Some b -> (a <= b)%Z).
  { intros i a b Ha Hb.
    destruct i as [| [| [| i]]]; simpl in Ha, Hb;
      try (injection Ha as <-; injection Hb as <-; lia).
    destruct i; discriminate. }
  split; [exact Hs |]. split; [exact Hup |].
  exact (proj2 (climb_without_descent (B := opaque_strings) 100%Z
                  [120; 120; 150]%Z Hs Hup)).
Defined.

Lemma sampleCoords_short_path_kept_whole_witness :
  (List.length [c_a; c_b; c_c] < 100)%nat /\
  sampleCoords [c_a; c_b; c_c] = [c_a; c_b; c_c].
Proof.
  assert (H : (List.length [c_a; c_b; c_c] < 100)%nat) by (simpl; lia).
  split; [exact H |].
  exact (sampleCoords_short_path_kept_whole [c_a; c_b; c_c] H).
Defined.

Lemma getElevationProfile_never_reaches_fallback_witness :
  (2 <= List.length [c_a; c_b])%nat /\
  exists prof,
    getElevationProfile (B := opaque_strings) usgs_down (Some [c_a; c_b]) []
    = (Ok prof, [] ++ map UsgsIdentify (sampleCoords [c_a; c_b])).
Proof.
  assert (H : (2 <= List.length [c_a; c_b])%nat) by (simpl; lia).
  split; [exact H |].
  exact (proj2 (proj2 (getElevationProfile_never_reaches_fallback
                         (B := opaque_strings) usgs_down))
           [c_a; c_b] [] H).
Defined.

(** The run on which the theorems about a returned profile are tried:
    three coordinates, and the elevations 100, 150, 120. *)
Lemma hill_run :
  exists prof,
    getElevationProfile (B := opaque_strings) usgs_hill
      (Some [c_a; c_b; c_c]) []
    = (Ok prof, [UsgsIdentify c_a; UsgsIdentify c_b; UsgsIdentify c_c]) /\
    map elevation (points prof) = [JNum 100; JNum 150; JNum 120].
Proof.
  destruct (getElevationProfile_primary (B := opaque_strings) usgs_hill
              [c_a; c_b; c_c] [] ltac:(simpl; lia)) as [prof [Hrun Hpoints]].
  exists prof. split; [exact Hrun |]. rewrite Hpoints. reflexivity.
Defined.

Lemma profile_points_follow_sampled_coordinates_witness :
  exists prof,
    fst (getElevationProfile (B := opaque_strings) usgs_hill
           (Some [c_a; c_b; c_c]) []) = Ok prof /\
    numberOfPoints (statistics prof) = List.length (points prof) /\
    List.length (points prof) = List.length (sampleCoords [c_a; c_b; c_c]).
Proof.
  destruct hill_run as [prof [Hrun _]].
  exists prof. rewrite Hrun. split; [reflexivity |].
  destruct (profile_points_follow_sampled_coordinates (B := opaque_strings)
              usgs_hill _ _ _ _ Hrun) as [Hn [Hl _]].
  split; [exact Hn | exact Hl].
Defined.

Lemma profile_total_distance_is_last_cumulative_distance_witness :
  exists prof,
    fst (getElevationProfile (B := opaque_strings) usgs_hill
           (Some [c_a; c_b; c_c]) []) = Ok prof /\
    nth_error (calculateCumulativeDistances (sampleCoords [c_a; c_b; c_c]))
      (List.length (sampleCoords [c_a; c_b; c_c]) - 1)
    = Some (totalDistanceMeters (statistics prof)) /\
    totalDistanceKm (statistics prof)
    = totalDistanceMeters (statistics prof) / 1000.
Proof.
  destruct hill_run as [prof [Hrun _]].
  exists prof. rewrite Hrun. split; [reflexivity |].
  destruct (profile_total_distance_is_last_cumulative_distance
              (B := opaque_strings) usgs_hill _ _ _ _ Hrun)
    as [_ [Hlast [Hkm _]]].
  split; [exact Hlast | exact Hkm].
Defined.


Lemma profile_extrema_attained_witness :
  exists prof p q,
    fst (getElevationProfile (B := opaque_strings) usgs_hill
           (Some [c_a; c_b; c_c]) []) = Ok prof /\
    Forall (fun p => numeric (B := opaque_strings) (elevation p))
      (points prof) /\
    In p (points prof) /\
    ToNumber (B := opaque_strings) (elevation p)
    = minElevation (statistics prof) /\
    In q (points prof) /\
    ToNumber (B := opaque_strings) (elevation q)
    = maxElevation (statistics prof).
Proof.
  destruct hill_run as [prof [Hrun Helev]].
  assert (Hnum : Forall (fun p => numeric (B := opaque_strings) (elevation p))
                   (points prof)).
  { apply Forall_map. rewrite Helev.
    repeat constructor; eexists; reflexivity. }
  destruct (profile_extrema_attained (B := opaque_strings) usgs_hill
              _ _ _ _ Hrun Hnum) as [[p [Hp Hmin]] [q [Hq Hmax]]].
  exists prof, p, q. rewrite Hrun.
  repeat split; assumption.
Defined.

Lemma profile_extrema_poisoned_by_non_number_witness :
  exists prof p,
    fst (getElevationProfile (B := opaque_strings) usgs_pixel_string
           (Some [c_a; c_b]) []) = Ok prof /\
    In p (points prof) /\
    ToNumber (B := opaque_strings) (elevation p) = NaN /\
    minElevation (statistics prof) = NaN /\
    maxElevation (statistics prof) = NaN.
Proof.
  destruct (getElevationProfile_primary (B := opaque_strings)
              usgs_pixel_string [c_a; c_b] [] ltac:(simpl; lia))
    as [prof [Hrun Hpoints]].
  assert (Hex : exists p, In p (points prof) /\
                          elevation p = JStr "12.5 7").
  { rewrite Hpoints. eexists. split; [left; reflexivity | reflexivity]. }
  destruct Hex as [p [Hin Hp]].
  assert (Hnan : ToNumber (B := opaque_strings) (elevation p) = NaN)
    by (rewrite Hp; reflexivity).
  destruct (profile_extrema_poisoned_by_non_number (B := opaque_strings)
              usgs_pixel_string _ _ _ _ p Hrun Hin Hnan)
    as [Hmin [Hmax _]].
  exists prof, p. rewrite Hrun. repeat split; assumption.
Defined.

Lemma open_elevation_one_request_witness :
  ok 503 = false /\
  fst (getElevationFromOpenElevation open_elevation_unavailable [c_a; c_b] [])
  = Throw (HttpError 503) /\
  snd (getElevationFromOpenElevation open_elevation_unavailable [c_a; c_b] [])
  = [OpenElevationLookup
       [ {| latitude := lat c_a; longitude := lng c_a |};
         {| latitude := lat c_b; longitude := lng c_b |} ]].
Proof.
  assert (H : ok 503 = false) by reflexivity.
  split; [exact H |]. split.
  - exact (proj1 (proj2 (open_elevation_one_request
                           open_elevation_unavailable [c_a; c_b] []))
             503%nat None eq_refl H).
  - exact (proj1 (open_elevation_one_request
                    open_elevation_unavailable [c_a; c_b] [])).
Defined.

Lemma yScale_within_chart_witness :
  100 <= 120 <= 150 /\ 100 < 150 /\
  0 <= yScale 100 150 120 <= 100 /\
  yScale 100 150 100 = 100 /\ yScale 100 150 150 = 0.
Proof.
  assert (H1 : 100 <= 120 <= 150) by lra.
  assert (H2 : 100 < 150) by lra.
  split; [exact H1 |]. split; [exact H2 |]. split; [| split].
  - exact (proj1 (yScale_within_chart 100 150) 120 H1).
  - exact (proj1 (proj1 (proj2 (yScale_within_chart 100 150)) H2)).
  - exact (proj1 (proj2 (proj1 (proj2 (yScale_within_chart 100 150)) H2))).
Defined.

Lemma click_without_profile_witness :
  queryRenderedFeatures (map_rendering []) click_point layers = Some [] /\
  handleMapClick (B := opaque_strings) usgs_hill click_point initial_ui
    (map_rendering []) []
  = ({| elevationProfile := None; selectedStreamFeature := None;
        loading := false; errorMessage := Some no_stream_found;
        showInstructions := true |}, map_rendering [], []) /\
  handleMapClick (B := opaque_strings) usgs_hill click_point initial_ui
    (map_rendering [stub_feature]) []
  = ({| elevationProfile := None; selectedStreamFeature := None;
        loading := false; errorMessage := Some failed_to_get_data;
        showInstructions := true |}, map_rendering [stub_feature], []).
Proof.
  assert (H : queryRenderedFeatures (map_rendering []) click_point layers
              = Some []) by reflexivity.
  split; [exact H |]. split.
  - exact (proj1 (click_without_profile (B := opaque_strings) usgs_hill
                    click_point initial_ui (map_rendering []) [])
             (or_intror (or_introl H))).
  - exact (proj2 (click_without_profile (B := opaque_strings) usgs_hill
                    click_point initial_ui (map_rendering [stub_feature]) [])
             stub_feature [] [c_a] eq_refl (or_introl eq_refl)
             ltac:(simpl; lia)).
Defined.

Lemma click_on_stream_shows_profile_witness :
  (2 <= List.length [c_a; c_b; c_c])%nat /\
  exists prof,
    handleMapClick (B := opaque_strings) usgs_hill click_point initial_ui
      (map_rendering [line_feature]) []
    = ({| elevationProfile := Some prof;
          selectedStreamFeature := Some line_feature;
          loading := false;
          errorMessage := None;
          showInstructions := false |},
       {| queryRenderedFeatures :=
            queryRenderedFeatures (map_rendering [line_feature]);
          highlighted_source := Some line_feature;
          highlighted_layer := true |},
       [] ++ map UsgsIdentify (sampleCoords [c_a; c_b; c_c])).
Proof.
  assert (H : (2 <= List.length [c_a; c_b; c_c])%nat) by (simpl; lia).
  split; [exact H |].
  destruct (click_on_stream_shows_profile (B := opaque_strings) usgs_hill
              click_point initial_ui (map_rendering [line_feature]) []
              line_feature [] [c_a; c_b; c_c] eq_refl (or_introl eq_refl) H)
    as [prof [_ Hclick]].
  exists prof. exact Hclick.
Defined.

Lemma clear_after_click_witness :
  (2 <= List.length [c_a; c_b; c_c])%nat /\
  let '(st', map', _) :=
    handleMapClick (B := opaque_strings) usgs_hill click_point initial_ui
      (map_rendering [line_feature]) [] in
  clearSelection (Some map') st'
  = ({| elevationProfile := None; selectedStreamFeature := None;
        loading := false; errorMessage := None; showInstructions := false |},
     Some (map_rendering [line_feature])).
Proof.
  assert (H : (2 <= List.length [c_a; c_b; c_c])%nat) by (simpl; lia).
  split; [exact H |].
  pose proof (clear_after_click (B := opaque_strings) usgs_hill
                click_point initial_ui (map_rendering [line_feature]) []
                line_feature [] [c_a; c_b; c_c] eq_refl (or_introl eq_refl) H)
    as Hclear.
  destruct (handleMapClick _ _ _ _ _) as [[st' map'] tr'].
  exact (proj1 Hclear).
Defined.

Lemma chart_horizontal_scale_spans_profile_witness :
  exists prof p0 ps,
    fst (getElevationProfile (B := opaque_strings) usgs_hill
           (Some [c_a; c_north]) []) = Ok prof /\
    points prof = p0 :: ps /\
    0 < totalDistanceMeters (statistics prof) /\
    maxDistance p0 ps = totalDistanceMeters (statistics prof) /\
    xScale (maxDistance p0 ps) (distance p0) = 0 /\
    xScale (maxDistance p0 ps) (distance (last ps p0)) = 730.
Proof.
  destruct (getElevationProfile_primary (B := opaque_strings) usgs_hill
              [c_a; c_north] [] ltac:(simpl; lia)) as [prof [Hrun Hpoints]].
  destruct (getElevationProfile_statistics (B := opaque_strings) usgs_hill
              _ _ _ _ Hrun) as [p0 [ps [Hpts _]]].
  assert (Hpos : 0 < totalDistanceMeters (statistics prof)).
  { rewrite (proj1 (last_point_distance (B := opaque_strings) usgs_hill
                      _ _ _ _ Hrun)).
    change (sampleCoords [c_a; c_north]) with [c_a; c_north].
    cbn [path_length length_from]. unfold c_a, c_north.
    rewrite (proj1 (great_circle_arcs 1 ltac:(lra)) (-110) 41).
    pose proof PI_RGT_0. lra. }
  destruct (chart_horizontal_scale_spans_profile (B := opaque_strings)
              usgs_hill _ _ _ _ p0 ps Hrun Hpts) as [Hmax Hscale].
  destruct (Hscale Hpos) as [Hfirst [Hlast _]].
  exists prof, p0, ps. rewrite Hrun.
  repeat split; assumption.
Defined.

End MoreClosedExamples.

(** ** What rounding does to the distance and to the sums *)

Section RoundingFacts.
Import JS Service Examples.



(** The cumulative distances of that pair: 0, then [NaN], and [0 <= NaN]
    is false. *)
Example cumulative_distances_not_a_number :
  exists total,
    Binary64.calculateCumulativeDistances (M := Binary64.antipodes_table)
      [Binary64.north; Binary64.south]
    = [PrimFloat.zero; total] /\
    PrimFloat.is_nan total = true /\
    PrimFloat.leb PrimFloat.zero total = false.
Proof. eexists. split; [reflexivity |]. split; vm_compute; reflexivity. Qed.



End RoundingFacts.
